(** * Fitness tracker (homework.py): a shallow embedding and its properties

    The module computes distance, mean speed and spent calories for three
    kinds of workout and renders a one-line summary.  The embedding keeps
    the shape of the Python source:

    - numbers are Python numbers: unbounded [int] (as [Z]) or [float]
      (IEEE 754 binary64, as Rocq's primitive floats), with the implicit
      int-to-float conversion written out;
    - objects live in a heap; an instance has a class and a [__dict__];
      attribute reads go through the instance dictionary and then through
      the classes of the method resolution order;
    - methods are computations in a state-and-exception monad, and a method
      call dispatches on the class of [self];
    - the C library function behind [x ** 2] on floats is a parameter of
      the development. *)

From Stdlib Require Import ZArith NArith Floats Ascii String DecimalString.
From stdpp Require Import base option list strings gmap fin_maps.

(* Decimal literals such as 0.65 denote the nearest binary64 value, which is
   also how Python reads them. *)
#[global] Set Warnings "-inexact-float".

(** ** Exceptions and results *)

Inductive exn : Type :=
  | KeyError (msg : string)
  | TypeError
  | AttributeError (name : string)
  | ZeroDivisionError
  | OverflowError.

Inductive result (A : Type) : Type :=
  | Ok (a : A)
  | Raise (e : exn).
Arguments Ok {A} a.
Arguments Raise {A} e.

#[global] Instance result_ret : MRet result := fun A a => Ok a.
#[global] Instance result_bind : MBind result := fun A B f r =>
  match r with
  | Ok a => f a
  | Raise e => Raise e
  end.

(** ** Python numbers *)

Inductive value : Type :=
  | VNone
  | VInt (z : Z)
  | VFloat (f : float).

Module PyNum.

(** [float(z)] for an int: rounded to nearest, ties to even;
    "int too large to convert to float" when the rounded value does not
    fit. *)
Definition int_to_float (z : Z) : result float :=
  match binary_normalize prec emax z 0 false with
  | S754_infinity _ => Raise OverflowError
  | sf => Ok (SF2Prim sf)
  end.

(** The conversion an arithmetic operator applies to an operand when the
    other one is a float. *)
Definition to_float (v : value) : result float :=
  match v with
  | VNone => Raise TypeError
  | VInt z => int_to_float z
  | VFloat f => Ok f
  end.

Definition float_is_zero (f : float) : bool := (f =? 0)%float.

(** [a / b] on two ints: the quotient of the integers rounded once to the
    nearest float.  The quotient is taken with at least 55 significant
    bits and a sticky bit for the remainder, then rounded. *)
Definition int_true_divide (a b : Z) : result float :=
  if (b =? 0)%Z then Raise ZeroDivisionError else
  let negate := xorb (a <? 0)%Z (b <? 0)%Z in
  let a' := Z.abs a in
  let b' := Z.abs b in
  if (a' =? 0)%Z then Ok (if negate then (-0)%float else 0%float) else
  let shift := Z.max 0 (Z.log2 b' - Z.log2 a' + 55) in
  let n := (a' * 2 ^ shift)%Z in
  let q := (n / b')%Z in
  let sticky := if (n mod b' =? 0)%Z then 0%Z else 1%Z in
  let m := (2 * q + sticky)%Z in
  match binary_normalize prec emax (if negate then - m else m)%Z
                         (- shift - 1) false with
  | S754_infinity _ => Raise OverflowError
  | sf => Ok (SF2Prim sf)
  end.

(** [a + b] *)
Definition py_add (a b : value) : result value :=
  match a, b with
  | VInt x, VInt y => Ok (VInt (x + y))
  | VInt x, VFloat y => fx ← int_to_float x; Ok (VFloat (fx + y))
  | VFloat x, VInt y => fy ← int_to_float y; Ok (VFloat (x + fy))
  | VFloat x, VFloat y => Ok (VFloat (x + y))
  | _, _ => Raise TypeError
  end.

(** [a * b] *)
Definition py_mul (a b : value) : result value :=
  match a, b with
  | VInt x, VInt y => Ok (VInt (x * y))
  | VInt x, VFloat y => fx ← int_to_float x; Ok (VFloat (fx * y))
  | VFloat x, VInt y => fy ← int_to_float y; Ok (VFloat (x * fy))
  | VFloat x, VFloat y => Ok (VFloat (x * y))
  | _, _ => Raise TypeError
  end.

(** [a / b] (true division).  A zero divisor raises; with a float on one
    side the int operand is converted first, the left one before the
    right one. *)
Definition py_truediv (a b : value) : result value :=
  match a, b with
  | VInt x, VInt y => q ← int_true_divide x y; Ok (VFloat q)
  | VInt x, VFloat y =>
      fx ← int_to_float x;
      if float_is_zero y then Raise ZeroDivisionError
      else Ok (VFloat (fx / y))
  | VFloat x, VInt y =>
      if (y =? 0)%Z then Raise ZeroDivisionError
      else fy ← int_to_float y; Ok (VFloat (x / fy))
  | VFloat x, VFloat y =>
      if float_is_zero y then Raise ZeroDivisionError
      else Ok (VFloat (x / y))
  | _, _ => Raise TypeError
  end.

(** [v > 0] as a test (the precondition on durations and heights). *)
Definition py_positive (v : value) : bool :=
  match v with
  | VNone => false
  | VInt z => (0 <? z)%Z
  | VFloat f => (0 <? f)%float
  end.

Section Pow.
(** The C library's [pow(x, 2.0)], which the interpreter calls for
    [x ** 2] on a float once the special cases are out of the way. *)
Variable libm_pow2 : float -> float.

Definition float_pow2 (x : float) : result float :=
  if PrimFloat.is_nan x then Ok x
  else if PrimFloat.is_infinity x then Ok infinity
  else if float_is_zero x then Ok 0%float
  else
    let ax := PrimFloat.abs x in
    if (ax =? 1)%float then Ok 1%float
    else
      let r := libm_pow2 ax in
      if PrimFloat.is_infinity r then Raise OverflowError else Ok r.

(** [a ** 2] *)
Definition py_pow2 (a : value) : result value :=
  match a with
  | VNone => Raise TypeError
  | VInt x => Ok (VInt (x * x))
  | VFloat x => r ← float_pow2 x; Ok (VFloat r)
  end.
End Pow.

(** One admissible C library: squares correctly rounded, [x * x].  The
    platform's [pow(x, 2.0)] may return a neighbouring float instead
    (glibc does for 0.3332108000000001); the statements about squares
    hold for every library within one unit in the last place. *)
Definition pow2_exact (x : float) : float := (x * x)%float.

End PyNum.
Export PyNum.

(** ** The format specification [.3f] *)

Module PyFormat.

Definition digit_char (d : N) : ascii := ascii_of_N (48 + d).

(** Decimal digits of a natural number, without leading zeros. *)
Definition decimal_of_N (n : N) : string :=
  NilZero.string_of_uint (N.to_uint n).

Definition three_digits (n : N) : string :=
  String (digit_char (n / 100 mod 10))
    (String (digit_char (n / 10 mod 10))
       (String (digit_char (n mod 10)) EmptyString)).

(** [m * 2^e * 1000] rounded to an integer, ties to even: the number of
    thousandths the conversion prints. *)
Definition thousandths (m : positive) (e : Z) : N :=
  let n := (Npos m * 1000)%N in
  match e with
  | Z0 => n
  | Zpos p => (n * 2 ^ Npos p)%N
  | Zneg p =>
      let d := (2 ^ Npos p)%N in
      let q := (n / d)%N in
      let r := (n mod d)%N in
      match (2 * r ?= d)%N with
      | Lt => q
      | Gt => (q + 1)%N
      | Eq => if N.even q then q else (q + 1)%N
      end
  end.

Definition sign_string (s : bool) : string := if s then "-" else "".

Definition fixed3 (s : bool) (n : N) : string :=
  sign_string s +:+ decimal_of_N (n / 1000) +:+ "." +:+ three_digits (n mod 1000).

(** [format(f, '.3f')] for a float *)
Definition format_float_3f (f : float) : string :=
  match Prim2SF f with
  | S754_nan => "nan"
  | S754_infinity s => sign_string s +:+ "inf"
  | S754_zero s => fixed3 s 0
  | S754_finite s m e => fixed3 s (thousandths m e)
  end.

(** [format(v, '.3f')]: an int is converted to a float first; [None] does
    not support the format. *)
Definition format_3f (v : value) : result string :=
  match v with
  | VNone => Raise TypeError
  | VInt z => f ← int_to_float z; Ok (format_float_3f f)
  | VFloat f => Ok (format_float_3f f)
  end.

End PyFormat.
Export PyFormat.

(** ** Objects, classes and the heap *)

Inductive class : Type := Training | Running | SportsWalking | Swimming.

#[global] Instance class_eq_dec : EqDecision class.
Proof. solve_decision. Defined.

(** [cls.__name__] *)
Definition class_name (c : class) : string :=
  match c with
  | Training => "Training"
  | Running => "Running"
  | SportsWalking => "SportsWalking"
  | Swimming => "Swimming"
  end.

(** The base class named in the class statement. *)
Definition base (c : class) : option class :=
  match c with
  | Training => None
  | Running | SportsWalking | Swimming => Some Training
  end.

(** Method resolution order: the class, then its base. *)
Definition mro (c : class) : list class :=
  match base c with
  | None => [c]
  | Some b => [c; b]
  end.

(** First hit of a per-class table along a resolution order. *)
Fixpoint resolve {A} (own : class -> option A) (order : list class) : option A :=
  match order with
  | [] => None
  | c :: rest =>
      match own c with
      | Some x => Some x
      | None => resolve own rest
      end
  end.

(** The constants written in each class body. *)
Definition class_dict (c : class) : gmap string value :=
  match c with
  | Training =>
      {[ "M_IN_KM" := VInt 1000;
         "LEN_STEP" := VFloat 0.65;
         "MIN_IN_H" := VInt 60 ]}
  | Running =>
      {[ "LEN_STEP" := VFloat 0.65;
         "CALORIES_MEAN_SPEED_MULTIPLIER" := VInt 18;
         "CALORIES_MEAN_SPEED_SHIFT" := VFloat 1.79 ]}
  | SportsWalking =>
      {[ "CALORIES_WEIGHT_MULTIPLIER" := VFloat 0.035;
         "CALORIES_SPEED_HEIGHT_MULTIPLIER" := VFloat 0.029;
         "KMH_IN_MSEC" := VFloat 0.278;
         "CM_IN_M" := VInt 100 ]}
  | Swimming =>
      {[ "LEN_STEP" := VFloat 1.38;
         "CALORIES_MEAN_SPEED_MULTIPLIER" := VInt 18;
         "CALORIES_MEAN_SPEED_SHIFT" := VFloat 1.1;
         "CALORIES_WEIGHT_MULTIPLIER" := VInt 2;
         "CALORIES_WEIGHT_SHIFT" := VFloat 0.029 ]}
  end.

Definition class_getattr (c : class) (name : string) : option value :=
  resolve (fun k => class_dict k !! name) (mro c).

Record object : Type := { ob_class : class; ob_dict : gmap string value }.

(** Locations are indices into the heap. *)
Abbreviation loc := nat (only parsing).
Abbreviation heap := (list object) (only parsing).

(** ** Computations: state passing with exceptions *)

Definition M (A : Type) : Type := heap -> result A * heap.

#[global] Instance M_ret : MRet M := fun A a h => (Ok a, h).
#[global] Instance M_bind : MBind M := fun A B f m h =>
  match m h with
  | (Ok a, h') => f a h'
  | (Raise e, h') => (Raise e, h')
  end.

(** Running a pure, possibly failing, step inside a computation. *)
Class Lift (T : Type -> Type) := lift : forall {A}, result A -> T A.
#[global] Instance result_lift : Lift result := fun A r => r.
#[global] Instance M_lift : Lift M := fun A r h => (r, h).

Definition raise {A} (e : exn) : M A := lift (Raise e).

(** [self.name]: the instance dictionary first, then the classes. *)
Definition getattr (self : loc) (name : string) : M value := fun h =>
  match h !! self with
  | None => (Raise (AttributeError name), h)
  | Some o =>
      match ob_dict o !! name with
      | Some v => (Ok v, h)
      | None =>
          match class_getattr (ob_class o) name with
          | Some v => (Ok v, h)
          | None => (Raise (AttributeError name), h)
          end
      end
  end.

(** [self.name = v] *)
Definition setattr (self : loc) (name : string) (v : value) : M unit := fun h =>
  match h !! self with
  | None => (Raise (AttributeError name), h)
  | Some o =>
      (Ok tt, <[self := {| ob_class := ob_class o;
                           ob_dict := <[name := v]> (ob_dict o) |}]> h)
  end.

(** [self.__class__] *)
Definition type_of (self : loc) : M class := fun h =>
  match h !! self with
  | None => (Raise (AttributeError "__class__"), h)
  | Some o => (Ok (ob_class o), h)
  end.

(** A fresh instance of [c] with an empty dictionary. *)
Definition new (c : class) : M loc := fun h =>
  (Ok (length h), h ++ [{| ob_class := c; ob_dict := ∅ |}]).

(** ** Expressions

    An operator evaluates its left operand, then its right operand, then
    applies the operation.  The same combinators serve for method bodies
    (in [M]) and for closed formulas (in [result]). *)

Section Operators.
Context {T : Type -> Type} `{!MBind T, !Lift T}.

Definition binop (op : value -> value -> result value) (x y : T value) : T value :=
  a ← x; b ← y; lift (op a b).

Definition e_add : T value -> T value -> T value := binop py_add.
Definition e_mul : T value -> T value -> T value := binop py_mul.
Definition e_div : T value -> T value -> T value := binop py_truediv.
Definition e_pow2 (libm_pow2 : float -> float) (x : T value) : T value :=
  a ← x; lift (py_pow2 libm_pow2 a).
End Operators.

Declare Scope py_scope.
Delimit Scope py_scope with py.
Infix "+" := e_add : py_scope.
Infix "*" := e_mul : py_scope.
Infix "/" := e_div : py_scope.
Notation "self .: name" := (getattr self name) (at level 20, no associativity) : py_scope.

(** ** class InfoMessage *)

Record InfoMessage : Type := {
  training_type : string;
  duration : value;
  distance : value;
  speed : value;
  calories : value
}.

Definition get_message (self : InfoMessage) : result string :=
  d ← format_3f (duration self);
  x ← format_3f (distance self);
  s ← format_3f (speed self);
  c ← format_3f (calories self);
  Ok ("Тип тренировки: " +:+ training_type self +:+ "; "
      +:+ "Длительность: " +:+ d +:+ " ч.; "
      +:+ "Дистанция: " +:+ x +:+ " км; "
      +:+ "Ср. скорость: " +:+ s +:+ " км/ч; "
      +:+ "Потрачено ккал: " +:+ c +:+ ".").

(** ** Method calls *)

(** [self.name()]: the first definition of the method along the resolution
    order of the class of [self]. *)
Definition call {A} (own : class -> option (loc -> M A)) (name : string)
    (self : loc) : M A :=
  c ← type_of self;
  match resolve own (mro c) with
  | Some f => f self
  | None => raise (AttributeError name)
  end.

Section Homework.

Variable libm_pow2 : float -> float.

Notation "x ** 2" := (e_pow2 libm_pow2 x) (at level 1) : py_scope.

(** *** class Training *)

Definition Training_init (self : loc) (args : list value) : M unit :=
  match args with
  | [action; duration; weight] =>
      setattr self "action" action;;
      setattr self "duration" duration;;
      setattr self "weight" weight
  | _ => raise TypeError
  end.

Definition Training_get_distance (self : loc) : M value :=
  (self.:"action" * self.:"LEN_STEP" / self.:"M_IN_KM")%py.

(** *** class Swimming(Training): distance and speed *)

Definition Swimming_init (self : loc) (args : list value) : M unit :=
  match args with
  | [action; duration; weight; length_pool; count_pool] =>
      Training_init self [action; duration; weight];;
      setattr self "length_pool" length_pool;;
      setattr self "count_pool" count_pool
  | _ => raise TypeError
  end.

Definition Swimming_get_distance (self : loc) : M value :=
  (self.:"action" * self.:"LEN_STEP" / self.:"M_IN_KM")%py.

Definition Swimming_get_mean_speed (self : loc) : M value :=
  (self.:"length_pool" * self.:"count_pool"
   / self.:"M_IN_KM" / self.:"duration")%py.

(** *** Dispatch of [get_distance] and [get_mean_speed] *)

Definition own_get_distance (c : class) : option (loc -> M value) :=
  match c with
  | Training => Some Training_get_distance
  | Swimming => Some Swimming_get_distance
  | Running | SportsWalking => None
  end.

Definition get_distance : loc -> M value := call own_get_distance "get_distance".

Definition Training_get_mean_speed (self : loc) : M value :=
  (get_distance self / self.:"duration")%py.

Definition own_get_mean_speed (c : class) : option (loc -> M value) :=
  match c with
  | Training => Some Training_get_mean_speed
  | Swimming => Some Swimming_get_mean_speed
  | Running | SportsWalking => None
  end.

Definition get_mean_speed : loc -> M value := call own_get_mean_speed "get_mean_speed".

(** *** [get_spent_calories] in each class *)

(** The body of the base method is [pass]: it returns [None]. *)
Definition Training_get_spent_calories (self : loc) : M value :=
  mret VNone.

Definition Running_get_spent_calories (self : loc) : M value :=
  ((self.:"CALORIES_MEAN_SPEED_MULTIPLIER"
    * get_mean_speed self + self.:"CALORIES_MEAN_SPEED_SHIFT")
   * self.:"weight" / self.:"M_IN_KM"
   * self.:"duration" * self.:"MIN_IN_H")%py.

Definition SportsWalking_init (self : loc) (args : list value) : M unit :=
  match args with
  | [action; duration; weight; height] =>
      Training_init self [action; duration; weight];;
      setattr self "height" height
  | _ => raise TypeError
  end.

Definition SportsWalking_get_spent_calories (self : loc) : M value :=
  (((self.:"CALORIES_WEIGHT_MULTIPLIER" * self.:"weight")
    + ((get_mean_speed self * self.:"KMH_IN_MSEC") ** 2
       / (self.:"height" / self.:"CM_IN_M"))
      * self.:"CALORIES_SPEED_HEIGHT_MULTIPLIER"
      * self.:"weight") * self.:"duration" * self.:"MIN_IN_H")%py.

Definition Swimming_get_spent_calories (self : loc) : M value :=
  ((get_mean_speed self
    + self.:"CALORIES_MEAN_SPEED_SHIFT")
   * self.:"CALORIES_WEIGHT_MULTIPLIER"
   * self.:"weight" * self.:"duration")%py.

Definition own_get_spent_calories (c : class) : option (loc -> M value) :=
  match c with
  | Training => Some Training_get_spent_calories
  | Running => Some Running_get_spent_calories
  | SportsWalking => Some SportsWalking_get_spent_calories
  | Swimming => Some Swimming_get_spent_calories
  end.

Definition get_spent_calories : loc -> M value :=
  call own_get_spent_calories "get_spent_calories".

(** *** [show_training_info], defined in Training only *)

Definition Training_show_training_info (self : loc) : M InfoMessage :=
  c ← type_of self;
  d ← (self.:"duration")%py;
  x ← get_distance self;
  s ← get_mean_speed self;
  k ← get_spent_calories self;
  mret {| training_type := class_name c;
          duration := d; distance := x; speed := s; calories := k |}.

Definition own_show_training_info (c : class) : option (loc -> M InfoMessage) :=
  match c with
  | Training => Some Training_show_training_info
  | Running | SportsWalking | Swimming => None
  end.

Definition show_training_info : loc -> M InfoMessage :=
  call own_show_training_info "show_training_info".

(** *** Instantiation: a call of the class on an argument list *)

Definition own_init (c : class) : option (loc -> list value -> M unit) :=
  match c with
  | Training => Some Training_init
  | Running => None
  | SportsWalking => Some SportsWalking_init
  | Swimming => Some Swimming_init
  end.

Definition instantiate (c : class) (args : list value) : M loc :=
  self ← new c;
  match resolve own_init (mro c) with
  | Some init => init self args;; mret self
  | None => mret self
  end.

(** *** read_package and main *)

Definition dictionary : gmap string class :=
  {[ "SWM" := Swimming; "RUN" := Running; "WLK" := SportsWalking ]}.

Definition read_package (workout_type : string) (data : list value) : M loc :=
  if bool_decide (dictionary !! workout_type = None)
  then raise (KeyError ("Ошибка типа тренировки " +:+ workout_type))
  else
    match dictionary !! workout_type with
    | Some cls => instantiate cls data
    | None => raise (KeyError workout_type)
    end.

(** [main] prints one line; the line is the result here. *)
Definition main (training : loc) : M string :=
  info ← show_training_info training;
  lift (get_message info).

(** ** The logical view of a workout instance

    What [__init__] leaves in the heap: the class and the instance
    dictionary with the constructor's arguments. *)

Inductive workout : Type :=
  | ATraining (a d w : value)
  | ARunning (a d w : value)
  | ASportsWalking (a d w ht : value)
  | ASwimming (a d w lp cp : value).

Definition class_of (wk : workout) : class :=
  match wk with
  | ATraining _ _ _ => Training
  | ARunning _ _ _ => Running
  | ASportsWalking _ _ _ _ => SportsWalking
  | ASwimming _ _ _ _ _ => Swimming
  end.

Definition args_of (wk : workout) : list value :=
  match wk with
  | ATraining a d w | ARunning a d w => [a; d; w]
  | ASportsWalking a d w ht => [a; d; w; ht]
  | ASwimming a d w lp cp => [a; d; w; lp; cp]
  end.

Definition base_fields (a d w : value) : gmap string value :=
  <["weight" := w]> (<["duration" := d]> (<["action" := a]> ∅)).

Definition fields_of (wk : workout) : gmap string value :=
  match wk with
  | ATraining a d w | ARunning a d w => base_fields a d w
  | ASportsWalking a d w ht => <["height" := ht]> (base_fields a d w)
  | ASwimming a d w lp cp =>
      <["count_pool" := cp]> (<["length_pool" := lp]> (base_fields a d w))
  end.

Definition object_of (wk : workout) : object :=
  {| ob_class := class_of wk; ob_dict := fields_of wk |}.

(** [self] is an instance as the constructor built it. *)
Definition holds (h : heap) (self : loc) (wk : workout) : Prop :=
  h !! self = Some (object_of wk).

Definition action_of (wk : workout) : value :=
  match wk with
  | ATraining a _ _ | ARunning a _ _
  | ASportsWalking a _ _ _ | ASwimming a _ _ _ _ => a
  end.

Definition duration_of (wk : workout) : value :=
  match wk with
  | ATraining _ d _ | ARunning _ d _
  | ASportsWalking _ d _ _ | ASwimming _ d _ _ _ => d
  end.

Definition concrete (wk : workout) : bool :=
  match wk with ATraining _ _ _ => false | _ => true end.

(** What [self.name] evaluates to on an instance. *)
Definition attr_of (wk : workout) (name : string) : result value :=
  match fields_of wk !! name with
  | Some v => Ok v
  | None =>
      match class_getattr (class_of wk) name with
      | Some v => Ok v
      | None => Raise (AttributeError name)
      end
  end.

(** ** The formulas of the specification

    Written with the constants the specification names, over Python
    arithmetic; an operand that failed makes the formula fail the same
    way. *)

Definition c_int (z : Z) : result value := Ok (VInt z).
Definition c_float (f : float) : result value := Ok (VFloat f).
Definition c_val (v : value) : result value := Ok v.

(** 0.65 for running and walking, 1.38 for swimming *)
Definition spec_step_length (wk : workout) : float :=
  match wk with
  | ASwimming _ _ _ _ _ => 1.38
  | _ => 0.65
  end.

(** [action * step_length / 1000] *)
Definition spec_distance (a : value) (step : float) : result value :=
  (c_val a * c_float step / c_int 1000)%py.

(** [get_distance() / duration] *)
Definition spec_mean_speed (dist : result value) (d : value) : result value :=
  (dist / c_val d)%py.

(** [length_pool * count_pool / 1000 / duration] *)
Definition spec_pool_speed (lp cp d : value) : result value :=
  (c_val lp * c_val cp / c_int 1000 / c_val d)%py.

(** [(18 * mean_speed + 1.79) * weight / 1000 * duration * 60] *)
Definition spec_running_calories (ms : result value) (w d : value) : result value :=
  ((c_int 18 * ms + c_float 1.79) * c_val w / c_int 1000
   * c_val d * c_int 60)%py.

(** [(0.035 * weight + ((mean_speed * 0.278)^2 / (height / 100)) * 0.029
     * weight) * duration * 60] *)
Definition spec_walking_calories (ms : result value) (w ht d : value) : result value :=
  ((c_float 0.035 * c_val w
    + ((ms * c_float 0.278) ** 2 / (c_val ht / c_int 100))
      * c_float 0.029 * c_val w) * c_val d * c_int 60)%py.

(** [(mean_speed + 1.1) * 2 * weight * duration] *)
Definition spec_swimming_calories (ms : result value) (w d : value) : result value :=
  ((ms + c_float 1.1) * c_int 2 * c_val w * c_val d)%py.

(** A call signals a fault when it raises. *)
Definition signals_fault {A} (r : result A) : Prop := exists e, r = Raise e.

(** ** Pure computations

    [pure_at h m r]: run from [h], [m] yields [r] and leaves [h] as it
    was. *)

Definition pure_at {A} (h : heap) (m : M A) (r : result A) : Prop :=
  m h = (r, h).

(** [m] never writes to the heap. *)
Definition readonly {A} (m : M A) : Prop := forall h, snd (m h) = h.

(** ** The rendering of a field with three fractional digits *)

Definition is_digit (c : ascii) : bool :=
  (48 <=? N_of_ascii c)%N && (N_of_ascii c <=? 57)%N.

Fixpoint all_digits (s : string) : bool :=
  match s with
  | EmptyString => true
  | String c s' => is_digit c && all_digits s'
  end.

(** An optional minus sign, at least one digit, a point, three digits. *)
Definition three_fractional_digits (s : string) : Prop :=
  exists (sign ip fp : string),
    s = sign +:+ ip +:+ "." +:+ fp /\
    (sign = "" \/ sign = "-") /\
    ip <> "" /\ all_digits ip = true /\
    String.length fp = 3 /\ all_digits fp = true.

(** A number that renders as digits: a finite float, or an int whose
    conversion to float is finite. *)
Definition float_finite (f : float) : bool :=
  match Prim2SF f with
  | S754_zero _ | S754_finite _ _ _ => true
  | S754_infinity _ | S754_nan => false
  end.

Definition finite_number (v : value) : Prop :=
  exists f, to_float v = Ok f /\ float_finite f = true.

(** The fixed text of the message around the five fields. *)
Definition message_template (label d x s c : string) : string :=
  "Тип тренировки: " +:+ label +:+ "; Длительность: " +:+ d
  +:+ " ч.; Дистанция: " +:+ x +:+ " км; Ср. скорость: " +:+ s
  +:+ " км/ч; Потрачено ккал: " +:+ c +:+ ".".

(** ** Auxiliary notions for the statements *)

(** Division by zero is the one failure the preconditions rule out. *)
Definition no_zero_division {A} (r : result A) : Prop :=
  r <> Raise ZeroDivisionError.

(** A divisor that is not zero. *)
Definition nonzero (v : value) : bool :=
  match v with
  | VNone => true
  | VInt z => negb (z =? 0)%Z
  | VFloat f => negb (float_is_zero f)
  end.

(** The heap after a call is the heap before it, so an instance still holds
    the fields its constructor stored. *)
Definition unchanged (h : heap) (self : loc) (h' : heap) : Prop :=
  h' = h /\ forall wk, holds h self wk -> holds h' self wk.

(** The instance a class builds from an argument list of the right length. *)
Definition view (c : class) (args : list value) : option workout :=
  match c, args with
  | Training, [a; d; w] => Some (ATraining a d w)
  | Running, [a; d; w] => Some (ARunning a d w)
  | SportsWalking, [a; d; w; ht] => Some (ASportsWalking a d w ht)
  | Swimming, [a; d; w; lp; cp] => Some (ASwimming a d w lp cp)
  | _, _ => None
  end.

(** The codes the dispatcher knows. *)
Definition recognized : list string := ["SWM"; "RUN"; "WLK"].

(** A string occurs inside another one. *)
Definition includes (msg part : string) : Prop :=
  exists pre post, msg = pre +:+ part +:+ post.

(** A field is rendered by [.3f] with exactly three fractional digits. *)
Definition rendered (v : value) (s : string) : Prop :=
  format_3f v = Ok s /\ three_fractional_digits s.

(** The message as the specification words it: the fixed text around the
    label and the four fields, each with exactly three fractional digits. *)
Definition message_as_specified (m : InfoMessage) : Prop :=
  exists d x s c,
    rendered (duration m) d /\ rendered (distance m) x
    /\ rendered (speed m) s /\ rendered (calories m) c
    /\ get_message m = Ok (message_template (training_type m) d x s c).

(** ** Concrete runs *)

(** The three packages of the script, as instances in a one-object heap. *)
Definition swim_720 : workout :=
  ASwimming (VInt 720) (VInt 1) (VInt 80) (VInt 25) (VInt 40).
Definition run_15000 : workout := ARunning (VInt 15000) (VInt 1) (VInt 75).
Definition walk_9000 : workout :=
  ASportsWalking (VInt 9000) (VInt 1) (VInt 75) (VInt 180).
Definition base_9000 : workout := ATraining (VInt 9000) (VInt 1) (VInt 75).

(** The summary of the swimming package, and a summary with an infinite
    number of calories: the run ("RUN", [15000, 1, 1e308]). *)
Definition summary_swim : InfoMessage :=
  {| training_type := "Swimming"; duration := VInt 1;
     distance := VFloat (720 * 1.38 / 1000); speed := VFloat 1;
     calories := VFloat 336 |}.

Definition summary_heavy : InfoMessage :=
  {| training_type := "Running"; duration := VInt 1;
     distance := VFloat 9.75; speed := VFloat 9.75;
     calories := VFloat infinity |}.

(** ** Further notions: constructors, outcomes, the script *)

(** The number of arguments each class takes, as its [__init__] (its own
    or the inherited one) declares them after [self]. *)
Definition arity (c : class) : nat :=
  match c with
  | Training | Running => 3
  | SportsWalking => 4
  | Swimming => 5
  end.

(** The attribute each positional argument is stored under. *)
Definition field_names (c : class) : list string :=
  match c with
  | Training | Running => ["action"; "duration"; "weight"]
  | SportsWalking => ["action"; "duration"; "weight"; "height"]
  | Swimming => ["action"; "duration"; "weight"; "length_pool"; "count_pool"]
  end.

(** The int 0 or a float zero of either sign. *)
Definition py_is_zero (v : value) : bool :=
  match v with
  | VNone => false
  | VInt z => (z =? 0)%Z
  | VFloat f => float_is_zero f
  end.

Definition is_float (v : value) : bool :=
  match v with VFloat _ => true | _ => false end.

(** A number the arithmetic can turn into a float. *)
Definition fits_float (v : value) : Prop := exists f, to_float v = Ok f.

Definition on_foot (wk : workout) : bool :=
  match wk with ASwimming _ _ _ _ _ => false | _ => true end.

(** What [get_mean_speed] divides by the duration. *)
Definition speed_numerator (wk : workout) : result value :=
  match wk with
  | ASwimming _ _ _ lp cp => (c_val lp * c_val cp / c_int 1000)%py
  | _ => spec_distance (action_of wk) (spec_step_length wk)
  end.

(** Fields with which no product overflows an int-to-float conversion:
    the action fits a float and, for swimming, the pool length is a float
    and the lap count fits one. *)
Definition plain (wk : workout) : Prop :=
  fits_float (action_of wk)
  /\ match wk with
     | ASwimming _ _ _ lp cp => is_float lp = true /\ fits_float cp
     | _ => True
     end.

(** *** The script: the loop over the packages

    Each package is read and summarised; the line [main] prints is kept.
    An exception ends the run; the lines printed before it stay printed. *)
Fixpoint run_packages (packages : list (string * list value)) (h : heap)
    : list string * result unit * heap :=
  match packages with
  | [] => ([], Ok tt, h)
  | (workout_type, data) :: rest =>
      match read_package workout_type data h with
      | (Raise e, h1) => ([], Raise e, h1)
      | (Ok training, h1) =>
          match main training h1 with
          | (Raise e, h2) => ([], Raise e, h2)
          | (Ok line, h2) =>
              let '(lines, r, h3) := run_packages rest h2 in
              (line :: lines, r, h3)
          end
      end
  end.

Definition packages : list (string * list value) :=
  [ ("SWM", [VInt 720; VInt 1; VInt 80; VInt 25; VInt 40]);
    ("RUN", [VInt 15000; VInt 1; VInt 75]);
    ("WLK", [VInt 9000; VInt 1; VInt 75; VInt 180]) ].

Definition weight_of (wk : workout) : value :=
  match wk with
  | ATraining _ _ w | ARunning _ _ w
  | ASportsWalking _ _ w _ | ASwimming _ _ w _ _ => w
  end.

(** The two classes whose calorie formula divides by no field and takes no
    power. *)
Definition runs_or_swims (wk : workout) : bool :=
  match wk with
  | ARunning _ _ _ | ASwimming _ _ _ _ _ => true
  | _ => false
  end.

(** What the script leaves behind: its three lines and its three objects. *)
Definition script_lines : list string :=
  [ "Тип тренировки: Swimming; Длительность: 1.000 ч.; Дистанция: 0.994 км; Ср. скорость: 1.000 км/ч; Потрачено ккал: 336.000.";
    "Тип тренировки: Running; Длительность: 1.000 ч.; Дистанция: 9.750 км; Ср. скорость: 9.750 км/ч; Потрачено ккал: 797.805.";
    "Тип тренировки: SportsWalking; Длительность: 1.000 ч.; Дистанция: 5.850 км; Ср. скорость: 5.850 км/ч; Потрачено ккал: 349.252." ].

Definition script_heap : list object :=
  [ object_of swim_720; object_of run_15000; object_of walk_9000 ].

(** A run that stood still, and one that went backwards in time. *)
Definition run_zero : workout := ARunning (VInt 15000) (VInt 0) (VInt 75).
Definition run_negative : workout :=
  ARunning (VInt 15000) (VFloat (-2)) (VInt 75).

(** ** The square behind [** 2], and what [.3f] prints for a float *)

(** [sq] is the float product [x * x] or one of its two neighbouring
    floats: what [pow(x, 2.0)] returns in a C library whose [pow] errs by
    less than one unit in the last place. *)
Definition near_square (x sq : float) : Prop :=
  sq = (x * x)%float \/ sq = next_up (x * x) \/ sq = next_down (x * x).

(** A C library as the interpreter expects it. *)
Definition faithful_pow2 (pow2 : float -> float) : Prop :=
  forall x, near_square x (pow2 x).

(** The string [.3f] gives for a float: [nan] for a NaN, [inf] and [-inf]
    for the infinities, and digits with exactly three of them after the
    point for a finite float. *)
Definition rendered_as (f : float) (s : string) : Prop :=
  (PrimFloat.is_nan f = true /\ s = "nan")
  \/ (f = infinity /\ s = "inf")
  \/ (f = neg_infinity /\ s = "-inf")
  \/ (float_finite f = true /\ three_fractional_digits s).

(** The four numeric fields of a summary, in the order they are formatted. *)
Definition numeric_fields (m : InfoMessage) : list value :=
  [duration m; distance m; speed m; calories m].


(** ** Basic facts about computations *)

Lemma pure_lift {A} h (r : result A) : pure_at h (lift r) r.
Proof. reflexivity. Qed.

Lemma pure_bind {A B} h (m : M A) (k : A -> M B) a r :
  pure_at h m (Ok a) -> pure_at h (k a) r -> pure_at h (m ≫= k) r.
Proof.
  unfold pure_at, mbind, M_bind. intros Hm Hk. rewrite Hm. exact Hk.
Qed.

Lemma pure_bind_result {A B} h (m : M A) (k : A -> M B) (rk : A -> result B) r :
  pure_at h m r -> (forall a, r = Ok a -> pure_at h (k a) (rk a)) ->
  pure_at h (m ≫= k) (r ≫= rk).
Proof.
  unfold pure_at, mbind, M_bind, result_bind. intros Hm Hk. rewrite Hm.
  destruct r as [a|e]; [ apply Hk; reflexivity | reflexivity ].
Qed.

Lemma pure_binop h op (x y : M value) rx ry :
  pure_at h x rx -> pure_at h y ry ->
  pure_at h (binop op x y) (binop op rx ry).
Proof.
  intros Hx Hy. unfold binop.
  apply pure_bind_result; [ exact Hx | intros a _ ].
  apply pure_bind_result; [ exact Hy | intros b _ ].
  apply pure_lift.
Qed.

Lemma pure_pow2 h (x : M value) rx :
  pure_at h x rx -> pure_at h (e_pow2 libm_pow2 x) (e_pow2 libm_pow2 rx).
Proof.
  intros Hx. unfold e_pow2.
  apply pure_bind_result; [ exact Hx | intros a _ ]. apply pure_lift.
Qed.

Lemma pure_getattr h self wk name :
  holds h self wk -> pure_at h (getattr self name) (attr_of wk name).
Proof.
  unfold holds, pure_at, getattr, attr_of. intros ->. simpl.
  destruct (fields_of wk !! name); [ reflexivity | ].
  destruct (class_getattr (class_of wk) name); reflexivity.
Qed.

Lemma pure_type_of h self wk :
  holds h self wk -> pure_at h (type_of self) (Ok (class_of wk)).
Proof. unfold holds, pure_at, type_of. intros ->. reflexivity. Qed.

Lemma pure_call {A} h self wk (own : class -> option (loc -> M A)) name f r :
  holds h self wk ->
  resolve own (mro (class_of wk)) = Some f ->
  pure_at h (f self) r ->
  pure_at h (call own name self) r.
Proof.
  intros Hh Hres Hf. unfold call.
  eapply pure_bind; [ apply pure_type_of; exact Hh | ].
  rewrite Hres. exact Hf.
Qed.

(** The bodies of the methods, on an instance. *)

Lemma Training_get_distance_pure h self wk :
  holds h self wk ->
  pure_at h (Training_get_distance self)
    (attr_of wk "action" * attr_of wk "LEN_STEP" / attr_of wk "M_IN_KM")%py.
Proof.
  intros Hh. unfold Training_get_distance.
  repeat first [ apply pure_binop | apply pure_getattr; exact Hh ].
Qed.

Lemma Swimming_get_distance_pure h self wk :
  holds h self wk ->
  pure_at h (Swimming_get_distance self)
    (attr_of wk "action" * attr_of wk "LEN_STEP" / attr_of wk "M_IN_KM")%py.
Proof.
  intros Hh. unfold Swimming_get_distance.
  repeat first [ apply pure_binop | apply pure_getattr; exact Hh ].
Qed.

(** [get_distance] on any instance: both definitions have the same body,
    and the step length is the one the class of [self] sees. *)
Lemma get_distance_pure h self wk :
  holds h self wk ->
  pure_at h (get_distance self)
    (attr_of wk "action" * attr_of wk "LEN_STEP" / attr_of wk "M_IN_KM")%py.
Proof.
  intros Hh. unfold get_distance.
  destruct wk;
    (eapply pure_call; [ exact Hh | reflexivity | ]);
    first [ apply Training_get_distance_pure | apply Swimming_get_distance_pure ];
    exact Hh.
Qed.

Lemma get_mean_speed_pure h self wk :
  holds h self wk ->
  pure_at h (get_mean_speed self)
    match wk with
    | ASwimming _ _ _ _ _ =>
        (attr_of wk "length_pool" * attr_of wk "count_pool"
         / attr_of wk "M_IN_KM" / attr_of wk "duration")%py
    | _ =>
        (attr_of wk "action" * attr_of wk "LEN_STEP" / attr_of wk "M_IN_KM"
         / attr_of wk "duration")%py
    end.
Proof.
  intros Hh. unfold get_mean_speed.
  destruct wk;
    (eapply pure_call; [ exact Hh | reflexivity | ]);
    unfold Training_get_mean_speed, Swimming_get_mean_speed;
    repeat first [ apply pure_binop
                 | apply pure_getattr; exact Hh
                 | apply get_distance_pure; exact Hh ].
Qed.

(** ** Facts about the arithmetic *)

Lemma int_to_float_1000 : int_to_float 1000 = Ok 1000%float.
Proof. vm_compute. reflexivity. Qed.

Lemma int_to_float_60 : int_to_float 60 = Ok 60%float.
Proof. vm_compute. reflexivity. Qed.

Lemma int_to_float_18 : int_to_float 18 = Ok 18%float.
Proof. vm_compute. reflexivity. Qed.

Lemma int_to_float_2 : int_to_float 2 = Ok 2%float.
Proof. vm_compute. reflexivity. Qed.

Lemma positive_float_nonzero (f : float) :
  (0 <? f)%float = true -> float_is_zero f = false.
Proof.
  unfold float_is_zero. rewrite ltb_spec, FloatAxioms.eqb_spec.
  change (Prim2SF 0%float) with (S754_zero false).
  unfold SFltb, SFeqb, SFcompare.
  destruct (Prim2SF f) as [ | | |s m e];
    repeat match goal with
           | |- context [if ?b then _ else _] => destruct b
           end; simpl; congruence.
Qed.

Lemma py_mul_float_r a fa y :
  to_float a = Ok fa -> py_mul a (VFloat y) = Ok (VFloat (fa * y)).
Proof. destruct a; simpl; intros H; [ discriminate | rewrite H | inversion H ]; reflexivity. Qed.

Lemma py_mul_float_l x b fb :
  to_float b = Ok fb -> py_mul (VFloat x) b = Ok (VFloat (x * fb)).
Proof. destruct b; simpl; intros H; [ discriminate | rewrite H | inversion H ]; reflexivity. Qed.

Lemma py_truediv_float_l x b fb :
  to_float b = Ok fb -> py_positive b = true ->
  py_truediv (VFloat x) b = Ok (VFloat (x / fb)).
Proof.
  destruct b as [ |z|f]; simpl; intros H Hpos; [ discriminate | | ].
  - destruct (Z.eqb_spec z 0) as [->|_]; [ discriminate | ].
    rewrite H. reflexivity.
  - inversion H; subst. rewrite (positive_float_nonzero _ Hpos). reflexivity.
Qed.

Lemma py_truediv_float_1000 x :
  py_truediv (VFloat x) (VInt 1000) = Ok (VFloat (x / 1000)).
Proof. apply py_truediv_float_l; reflexivity. Qed.

Lemma positive_nonzero v : py_positive v = true -> nonzero v = true.
Proof.
  destruct v as [ |z|f]; simpl; intros H; [ discriminate | | ].
  - destruct (Z.eqb_spec z 0) as [->|_]; [ discriminate | reflexivity ].
  - rewrite (positive_float_nonzero _ H). reflexivity.
Qed.

Lemma int_to_float_no_zd z : no_zero_division (int_to_float z).
Proof.
  unfold no_zero_division, int_to_float.
  destruct (binary_normalize prec emax z 0 false); discriminate.
Qed.

Lemma int_true_divide_no_zd a b : b <> 0%Z -> no_zero_division (int_true_divide a b).
Proof.
  intros Hb. unfold no_zero_division, int_true_divide.
  destruct (Z.eqb_spec b 0) as [?|_]; [ contradiction | ].
  destruct (Z.abs a =? 0)%Z; [ discriminate | ].
  match goal with |- context [binary_normalize ?p ?e ?m ?x ?s] =>
    destruct (binary_normalize p e m x s) end; discriminate.
Qed.

Lemma bind_float_no_zd (r : result float) (k : float -> value) :
  no_zero_division r -> no_zero_division (f ← r; Ok (k f)).
Proof. unfold no_zero_division. destruct r as [f|e]; simpl; congruence. Qed.

Lemma py_mul_no_zd a b : no_zero_division (py_mul a b).
Proof.
  destruct a, b; simpl; try discriminate;
    apply bind_float_no_zd, int_to_float_no_zd.
Qed.

Lemma py_add_no_zd a b : no_zero_division (py_add a b).
Proof.
  destruct a, b; simpl; try discriminate;
    apply bind_float_no_zd, int_to_float_no_zd.
Qed.

Lemma py_truediv_no_zd a b : nonzero b = true -> no_zero_division (py_truediv a b).
Proof.
  destruct a as [ |x|x], b as [ |y|y]; simpl; intros Hb; try discriminate.
  - apply bind_float_no_zd, int_true_divide_no_zd.
    destruct (Z.eqb_spec y 0); [ discriminate | assumption ].
  - apply negb_true_iff in Hb. rewrite Hb.
    pose proof (int_to_float_no_zd x) as Hx. unfold no_zero_division in *.
    destruct (int_to_float x); simpl; congruence.
  - apply negb_true_iff in Hb. rewrite Hb.
    apply bind_float_no_zd, int_to_float_no_zd.
  - apply negb_true_iff in Hb. rewrite Hb. discriminate.
Qed.

Lemma binop_no_zd op (rx ry : result value) :
  no_zero_division rx -> no_zero_division ry ->
  (forall a b, rx = Ok a -> ry = Ok b -> no_zero_division (op a b)) ->
  no_zero_division (binop op rx ry).
Proof.
  unfold no_zero_division, binop. intros Hx Hy Hop.
  destruct rx as [a|e]; simpl; [ | congruence ].
  destruct ry as [b|e]; simpl; [ | congruence ].
  apply Hop; reflexivity.
Qed.

(** Evaluating attribute reads on an instance whose class is known. *)
Ltac eval_attrs :=
  repeat match goal with
         | |- context [attr_of ?wk ?name] =>
             let r := eval vm_compute in (attr_of wk name) in
             change (attr_of wk name) with r
         end.

Ltac spec_unfold :=
  unfold spec_distance, spec_mean_speed, spec_pool_speed,
    spec_running_calories, spec_walking_calories, spec_swimming_calories,
    c_int, c_float, c_val, e_add, e_mul, e_div, e_pow2, binop,
    lift, result_lift, mbind, result_bind.

(** ** Distance *)

Lemma spec_distance_float a step fa :
  to_float a = Ok fa ->
  spec_distance a step = Ok (VFloat (fa * step / 1000)).
Proof.
  intros Ha. spec_unfold.
  rewrite (py_mul_float_r _ _ _ Ha). apply py_truediv_float_1000.
Qed.

Lemma get_distance_spec h self wk :
  holds h self wk ->
  get_distance self h = (spec_distance (action_of wk) (spec_step_length wk), h).
Proof.
  intros Hh. pose proof (get_distance_pure h self wk Hh) as Hp.
  destruct wk; revert Hp; eval_attrs; exact (fun Hp => Hp).
Qed.

(** C3: on an instance of each of the three concrete classes,
    [get_distance()] is [action * step_length / 1000] with the step length
    of the class of the instance: 0.65 for Running and SportsWalking (read
    from Running, resp. inherited from Training), 1.38 for Swimming, whose
    own definition of the method is the one called.  When the action
    converts to the float [fa], the result is the float
    [fa * step_length / 1000]. *)
Theorem get_distance_formula h self wk :
  concrete wk = true ->
  holds h self wk ->
  class_getattr (class_of wk) "LEN_STEP" = Some (VFloat (spec_step_length wk))
  /\ resolve own_get_distance (mro Swimming) = Some Swimming_get_distance
  /\ get_distance self h
     = (spec_distance (action_of wk) (spec_step_length wk), h)
  /\ forall fa, to_float (action_of wk) = Ok fa ->
       get_distance self h
       = (Ok (VFloat (fa * spec_step_length wk / 1000)), h).
Proof.
  intros Hc Hh. pose proof (get_distance_spec h self wk Hh) as Hd.
  split; [ destruct wk; try discriminate Hc; vm_compute; reflexivity | ].
  split; [ reflexivity | ].
  split; [ exact Hd | ].
  intros fa Hfa. rewrite Hd, (spec_distance_float _ _ _ Hfa). reflexivity.
Qed.

(** ** Mean speed *)

Lemma spec_distance_no_zd a step : no_zero_division (spec_distance a step).
Proof.
  unfold spec_distance, e_mul, e_div.
  apply binop_no_zd.
  - apply binop_no_zd; [ discriminate | discriminate | intros; apply py_mul_no_zd ].
  - discriminate.
  - intros x b _ Hb. inversion Hb; subst. apply py_truediv_no_zd. reflexivity.
Qed.

Lemma spec_mean_speed_no_zd dist d :
  no_zero_division dist -> py_positive d = true ->
  no_zero_division (spec_mean_speed dist d).
Proof.
  intros Hdist Hd. unfold spec_mean_speed, e_div.
  apply binop_no_zd; [ exact Hdist | discriminate | ].
  intros x b _ Hb. inversion Hb; subst.
  apply py_truediv_no_zd, positive_nonzero, Hd.
Qed.

Lemma spec_pool_speed_no_zd lp cp d :
  py_positive d = true -> no_zero_division (spec_pool_speed lp cp d).
Proof.
  intros Hd. unfold spec_pool_speed, e_mul, e_div.
  apply binop_no_zd; [ | discriminate | ].
  - apply binop_no_zd; [ | discriminate | ].
    + apply binop_no_zd; [ discriminate | discriminate | intros; apply py_mul_no_zd ].
    + intros x b _ Hb. inversion Hb; subst. apply py_truediv_no_zd. reflexivity.
  - intros x b _ Hb. inversion Hb; subst.
    apply py_truediv_no_zd, positive_nonzero, Hd.
Qed.

Lemma spec_mean_speed_float a step d fa fd :
  to_float a = Ok fa -> to_float d = Ok fd -> py_positive d = true ->
  spec_mean_speed (spec_distance a step) d
  = Ok (VFloat (fa * step / 1000 / fd)).
Proof.
  intros Ha Hd Hpos. rewrite (spec_distance_float _ _ _ Ha).
  unfold spec_mean_speed, e_div, binop, c_val. simpl.
  apply py_truediv_float_l; assumption.
Qed.

Lemma spec_pool_speed_float flp cp d fcp fd :
  to_float cp = Ok fcp -> to_float d = Ok fd -> py_positive d = true ->
  spec_pool_speed (VFloat flp) cp d = Ok (VFloat (flp * fcp / 1000 / fd)).
Proof.
  intros Hcp Hd Hpos. spec_unfold.
  rewrite (py_mul_float_l _ _ _ Hcp), py_truediv_float_1000.
  apply py_truediv_float_l; assumption.
Qed.

Lemma get_mean_speed_spec h self wk :
  holds h self wk ->
  get_mean_speed self h
  = (match wk with
     | ASwimming _ _ _ lp cp => spec_pool_speed lp cp (duration_of wk)
     | _ => spec_mean_speed (spec_distance (action_of wk) (spec_step_length wk))
                            (duration_of wk)
     end, h).
Proof.
  intros Hh. pose proof (get_mean_speed_pure h self wk Hh) as Hp.
  destruct wk; revert Hp; eval_attrs; exact (fun Hp => Hp).
Qed.

Lemma get_mean_speed_no_zd h self wk :
  holds h self wk ->
  py_positive (duration_of wk) = true ->
  no_zero_division (fst (get_mean_speed self h)).
Proof.
  intros Hh Hpos. rewrite (get_mean_speed_spec h self wk Hh). simpl.
  destruct wk;
    first [ apply spec_pool_speed_no_zd
          | apply spec_mean_speed_no_zd; [ apply spec_distance_no_zd | ] ];
    exact Hpos.
Qed.

(** The mean speed of a workout on foot, on float operands. *)
Lemma get_mean_speed_float h self wk fa fd :
  holds h self wk ->
  (if wk is ASwimming _ _ _ _ _ then false else true) = true ->
  py_positive (duration_of wk) = true ->
  to_float (action_of wk) = Ok fa ->
  to_float (duration_of wk) = Ok fd ->
  get_mean_speed self h = (Ok (VFloat (fa * 0.65 / 1000 / fd)), h).
Proof.
  intros Hh Hfoot Hpos Ha Hd. rewrite (get_mean_speed_spec h self wk Hh).
  destruct wk; try discriminate Hfoot; simpl in *;
    rewrite (spec_mean_speed_float _ _ _ _ _ Ha Hd Hpos); reflexivity.
Qed.

(** C4: with [duration > 0], on a Running or SportsWalking instance
    [get_mean_speed()] is [get_distance() / duration]; on a Swimming
    instance it is [length_pool * count_pool / 1000 / duration], whatever
    the action is.  In both cases the division by the duration does not
    fail, and on float operands the result is the float the formula
    denotes. *)
Theorem get_mean_speed_formula h self wk :
  concrete wk = true ->
  holds h self wk ->
  py_positive (duration_of wk) = true ->
  no_zero_division (fst (get_mean_speed self h))
  /\ match wk with
     | ASwimming a d w lp cp =>
         get_mean_speed self h = (spec_pool_speed lp cp d, h)
         /\ (forall h' self' a',
               holds h' self' (ASwimming a' d w lp cp) ->
               fst (get_mean_speed self' h') = fst (get_mean_speed self h))
         /\ (forall flp fcp fd,
               lp = VFloat flp -> to_float cp = Ok fcp -> to_float d = Ok fd ->
               get_mean_speed self h
               = (Ok (VFloat (flp * fcp / 1000 / fd)), h))
     | _ =>
         get_mean_speed self h
         = (spec_mean_speed (fst (get_distance self h)) (duration_of wk), h)
         /\ (forall fa fd,
               to_float (action_of wk) = Ok fa ->
               to_float (duration_of wk) = Ok fd ->
               get_mean_speed self h
               = (Ok (VFloat (fa * 0.65 / 1000 / fd)), h))
     end.
Proof.
  intros Hc Hh Hpos.
  pose proof (get_mean_speed_spec h self wk Hh) as Hs.
  pose proof (get_distance_spec h self wk Hh) as Hd.
  split; [ exact (get_mean_speed_no_zd h self wk Hh Hpos) | ].
  destruct wk as [a d w|a d w|a d w ht|a d w lp cp]; try discriminate Hc;
    simpl in *.
  - rewrite Hd. split; [ exact Hs | ].
    intros fa fd Ha Hfd.
    exact (get_mean_speed_float h self (ARunning a d w) fa fd Hh eq_refl Hpos Ha Hfd).
  - rewrite Hd. split; [ exact Hs | ].
    intros fa fd Ha Hfd.
    exact (get_mean_speed_float h self (ASportsWalking a d w ht) fa fd
             Hh eq_refl Hpos Ha Hfd).
  - split; [ exact Hs | ]. split.
    + intros h' self' a' Hh'.
      rewrite Hs, (get_mean_speed_spec h' self' _ Hh'). reflexivity.
    + intros flp fcp fd -> Hcp Hfd. rewrite Hs.
      rewrite (spec_pool_speed_float _ _ _ _ _ Hcp Hfd Hpos). reflexivity.
Qed.

(** ** Spent calories *)

Lemma get_mean_speed_fst h self wk :
  holds h self wk ->
  pure_at h (get_mean_speed self) (fst (get_mean_speed self h)).
Proof.
  intros Hh. unfold pure_at.
  rewrite (get_mean_speed_spec h self wk Hh). reflexivity.
Qed.

Ltac pure_steps Hh :=
  repeat first [ apply pure_binop
               | apply pure_pow2
               | apply pure_getattr; exact Hh
               | eapply get_mean_speed_fst; exact Hh ].

Lemma get_spent_calories_spec h self wk :
  holds h self wk ->
  get_spent_calories self h
  = (match wk with
     | ATraining _ _ _ => Ok VNone
     | ARunning _ d w =>
         spec_running_calories (fst (get_mean_speed self h)) w d
     | ASportsWalking _ d w ht =>
         spec_walking_calories (fst (get_mean_speed self h)) w ht d
     | ASwimming _ d w _ _ =>
         spec_swimming_calories (fst (get_mean_speed self h)) w d
     end, h).
Proof.
  intros Hh. unfold get_spent_calories.
  destruct wk as [a d w|a d w|a d w ht|a d w lp cp].
  - eapply pure_call; [ exact Hh | reflexivity | reflexivity ].
  - assert (Hp : pure_at h (Running_get_spent_calories self)
      ((attr_of (ARunning a d w) "CALORIES_MEAN_SPEED_MULTIPLIER"
        * fst (get_mean_speed self h)
        + attr_of (ARunning a d w) "CALORIES_MEAN_SPEED_SHIFT")
       * attr_of (ARunning a d w) "weight" / attr_of (ARunning a d w) "M_IN_KM"
       * attr_of (ARunning a d w) "duration"
       * attr_of (ARunning a d w) "MIN_IN_H")%py).
    { unfold Running_get_spent_calories. pure_steps Hh. }
    eapply pure_call; [ exact Hh | reflexivity | ].
    revert Hp; eval_attrs; exact (fun Hp => Hp).
  - assert (Hp : pure_at h (SportsWalking_get_spent_calories self)
      (((attr_of (ASportsWalking a d w ht) "CALORIES_WEIGHT_MULTIPLIER"
         * attr_of (ASportsWalking a d w ht) "weight")
        + ((fst (get_mean_speed self h)
            * attr_of (ASportsWalking a d w ht) "KMH_IN_MSEC") ** 2
           / (attr_of (ASportsWalking a d w ht) "height"
              / attr_of (ASportsWalking a d w ht) "CM_IN_M"))
          * attr_of (ASportsWalking a d w ht) "CALORIES_SPEED_HEIGHT_MULTIPLIER"
          * attr_of (ASportsWalking a d w ht) "weight")
       * attr_of (ASportsWalking a d w ht) "duration"
       * attr_of (ASportsWalking a d w ht) "MIN_IN_H")%py).
    { unfold SportsWalking_get_spent_calories. pure_steps Hh. }
    eapply pure_call; [ exact Hh | reflexivity | ].
    revert Hp; eval_attrs; exact (fun Hp => Hp).
  - assert (Hp : pure_at h (Swimming_get_spent_calories self)
      ((fst (get_mean_speed self h)
        + attr_of (ASwimming a d w lp cp) "CALORIES_MEAN_SPEED_SHIFT")
       * attr_of (ASwimming a d w lp cp) "CALORIES_WEIGHT_MULTIPLIER"
       * attr_of (ASwimming a d w lp cp) "weight"
       * attr_of (ASwimming a d w lp cp) "duration")%py).
    { unfold Swimming_get_spent_calories. pure_steps Hh. }
    eapply pure_call; [ exact Hh | reflexivity | ].
    revert Hp; eval_attrs; exact (fun Hp => Hp).
Qed.

Ltac no_zd_steps :=
  repeat first
    [ assumption
    | discriminate
    | apply py_mul_no_zd
    | apply py_add_no_zd
    | apply binop_no_zd;
      [ | | let Hb := fresh in
            intros ? ? _ Hb;
            first [ apply py_mul_no_zd | apply py_add_no_zd
                  | inversion Hb; subst; apply py_truediv_no_zd ] ] ].

Lemma spec_running_calories_no_zd ms w d :
  no_zero_division ms -> no_zero_division (spec_running_calories ms w d).
Proof.
  intros Hms. unfold spec_running_calories, e_add, e_mul, e_div, c_int, c_float, c_val.
  no_zd_steps; reflexivity.
Qed.

Lemma spec_swimming_calories_no_zd ms w d :
  no_zero_division ms -> no_zero_division (spec_swimming_calories ms w d).
Proof.
  intros Hms. unfold spec_swimming_calories, e_add, e_mul, e_div, c_int, c_float, c_val.
  no_zd_steps.
Qed.

Lemma spec_running_calories_float ms w d fw fd :
  to_float w = Ok fw -> to_float d = Ok fd ->
  spec_running_calories (Ok (VFloat ms)) w d
  = Ok (VFloat ((18 * ms + 1.79) * fw / 1000 * fd * 60)).
Proof.
  intros Hw Hd. spec_unfold.
  rewrite (py_mul_float_r (VInt 18) 18 ms int_to_float_18). simpl py_add. cbv iota beta.
  rewrite (py_mul_float_l _ _ _ Hw), py_truediv_float_1000.
  rewrite (py_mul_float_l _ _ _ Hd).
  apply (py_mul_float_l _ (VInt 60) 60 int_to_float_60).
Qed.

Lemma spec_swimming_calories_float ms w d fw fd :
  to_float w = Ok fw -> to_float d = Ok fd ->
  spec_swimming_calories (Ok (VFloat ms)) w d
  = Ok (VFloat ((ms + 1.1) * 2 * fw * fd)).
Proof.
  intros Hw Hd. spec_unfold. simpl py_add. cbv iota beta.
  rewrite (py_mul_float_l _ (VInt 2) 2 int_to_float_2).
  rewrite (py_mul_float_l _ _ _ Hw).
  apply (py_mul_float_l _ _ _ Hd).
Qed.

(** C5: on a Running instance with [duration > 0], [get_spent_calories()] is
    [(18 * mean_speed + 1.79) * weight / 1000 * duration * 60] where
    [mean_speed] is what [get_mean_speed()] yields; no division by zero
    occurs, and when the fields convert to floats the result is the float
    the formula denotes. *)
Theorem running_calories_formula h self a d w :
  holds h self (ARunning a d w) ->
  py_positive d = true ->
  get_spent_calories self h
  = (spec_running_calories (fst (get_mean_speed self h)) w d, h)
  /\ no_zero_division (fst (get_spent_calories self h))
  /\ forall fa fd fw,
       to_float a = Ok fa -> to_float d = Ok fd -> to_float w = Ok fw ->
       exists ms,
         get_mean_speed self h = (Ok (VFloat ms), h)
         /\ get_spent_calories self h
            = (Ok (VFloat ((18 * ms + 1.79) * fw / 1000 * fd * 60)), h).
Proof.
  intros Hh Hpos.
  pose proof (get_spent_calories_spec h self _ Hh) as Hs. cbv iota beta in Hs.
  pose proof (get_mean_speed_no_zd h self _ Hh Hpos) as Hnz.
  split; [ exact Hs | ]. split.
  - rewrite Hs. apply spec_running_calories_no_zd, Hnz.
  - intros fa fd fw Ha Hd Hw.
    pose proof (get_mean_speed_float h self (ARunning a d w) fa fd
                  Hh eq_refl Hpos Ha Hd) as Hms.
    eexists. split; [ exact Hms | ].
    rewrite Hs, Hms. simpl fst.
    rewrite (spec_running_calories_float _ _ _ _ _ Hw Hd). reflexivity.
Qed.

(** *** The float square *)

Lemma SFeqb_refl (sf : spec_float) : sf <> S754_nan -> SFeqb sf sf = true.
Proof.
  destruct sf as [s|s| |s m e]; intros Hn; try contradiction;
    unfold SFeqb, SFcompare; destruct s;
    rewrite ?Z.compare_refl, ?Pos.compare_cont_refl; reflexivity.
Qed.

Lemma is_nan_spec (f : float) :
  PrimFloat.is_nan f = true <-> Prim2SF f = S754_nan.
Proof.
  unfold PrimFloat.is_nan. rewrite FloatAxioms.eqb_spec. split.
  - destruct (Prim2SF f) eqn:E; try reflexivity;
      rewrite SFeqb_refl by discriminate; discriminate.
  - intros ->. reflexivity.
Qed.








(** *** The calories of a walk, outcome by outcome *)

Lemma spec_walking_calories_outcome ms w ht d fw fd hm :
  to_float w = Ok fw -> to_float d = Ok fd ->
  py_truediv ht (VInt 100) = Ok (VFloat hm) ->
  spec_walking_calories (Ok (VFloat ms)) w ht d
  = match float_pow2 libm_pow2 (ms * 0.278) with
    | Ok sq =>
        if float_is_zero hm then Raise ZeroDivisionError
        else Ok (VFloat ((0.035 * fw + sq / hm * 0.029 * fw) * fd * 60))
    | Raise e => Raise e
    end.
Proof.
  intros Hw Hd Hht. spec_unfold.
  rewrite (py_mul_float_l _ _ _ Hw).
  simpl py_mul. cbv iota beta. unfold py_pow2, mbind, result_bind.
  destruct (float_pow2 libm_pow2 (ms * 0.278)) as [sq|e]; [ | reflexivity ].
  rewrite Hht. simpl py_truediv.
  destruct (float_is_zero hm); [ reflexivity | ].
  simpl py_mul. cbv iota beta.
  rewrite (py_mul_float_l _ _ _ Hw). simpl py_add. cbv iota beta.
  rewrite (py_mul_float_l _ _ _ Hd).
  apply (py_mul_float_l _ (VInt 60) 60 int_to_float_60).
Qed.

Lemma walking_calories_outcome_eq h self a d w ht fa fd fw hm :
  holds h self (ASportsWalking a d w ht) ->
  py_positive d = true ->
  to_float a = Ok fa -> to_float d = Ok fd -> to_float w = Ok fw ->
  py_truediv ht (VInt 100) = Ok (VFloat hm) ->
  get_mean_speed self h = (Ok (VFloat (fa * 0.65 / 1000 / fd)), h)
  /\ get_spent_calories self h
     = (match float_pow2 libm_pow2 (fa * 0.65 / 1000 / fd * 0.278) with
        | Ok sq =>
            if float_is_zero hm then Raise ZeroDivisionError
            else Ok (VFloat ((0.035 * fw + sq / hm * 0.029 * fw) * fd * 60))
        | Raise e => Raise e
        end, h).
Proof.
  intros Hh Hpos Ha Hd Hw Hhm.
  pose proof (get_mean_speed_float h self (ASportsWalking a d w ht) fa fd
                Hh eq_refl Hpos Ha Hd) as Hms.
  split; [ exact Hms | ].
  rewrite (get_spent_calories_spec h self _ Hh). cbv iota beta.
  rewrite Hms. simpl fst.
  rewrite (spec_walking_calories_outcome _ _ _ _ _ _ _ Hw Hd Hhm).
  reflexivity.
Qed.


(** C7: on a Swimming instance with [duration > 0], [get_spent_calories()]
    is [(mean_speed + 1.1) * 2 * weight * duration] where [mean_speed] is
    what [get_mean_speed()] yields: the coefficient 2 multiplies.  No
    division by zero occurs, and when the mean speed is the float [ms] and
    weight and duration convert to floats the result is the float the
    formula denotes. *)
Theorem swimming_calories_formula h self a d w lp cp :
  holds h self (ASwimming a d w lp cp) ->
  py_positive d = true ->
  get_spent_calories self h
  = (spec_swimming_calories (fst (get_mean_speed self h)) w d, h)
  /\ no_zero_division (fst (get_spent_calories self h))
  /\ forall ms fd fw,
       get_mean_speed self h = (Ok (VFloat ms), h) ->
       to_float d = Ok fd -> to_float w = Ok fw ->
       get_spent_calories self h
       = (Ok (VFloat ((ms + 1.1) * 2 * fw * fd)), h).
Proof.
  intros Hh Hpos.
  pose proof (get_spent_calories_spec h self _ Hh) as Hs. cbv iota beta in Hs.
  pose proof (get_mean_speed_no_zd h self _ Hh Hpos) as Hnz.
  split; [ exact Hs | ]. split.
  - rewrite Hs. apply spec_swimming_calories_no_zd, Hnz.
  - intros ms fd fw Hms Hd Hw. rewrite Hs, Hms. simpl fst.
    rewrite (spec_swimming_calories_float _ _ _ _ _ Hw Hd). reflexivity.
Qed.

(** C1 (as the code has it): on an instance of the base class Training,
    [get_spent_calories()] raises nothing: the body is [pass], the call
    returns [None] and leaves the heap as it was, whatever action, duration
    and weight are. *)
Theorem base_calories_returns_none h self a d w :
  holds h self (ATraining a d w) ->
  get_spent_calories self h = (Ok VNone, h).
Proof.
  intros Hh. exact (get_spent_calories_spec h self _ Hh).
Qed.

(** ** Methods do not write *)

Lemma readonly_lift {A} (r : result A) : readonly (lift r : M A).
Proof. intros h. reflexivity. Qed.

Lemma readonly_ret {A} (a : A) : readonly (mret a : M A).
Proof. intros h. reflexivity. Qed.

Lemma readonly_bind {A B} (m : M A) (k : A -> M B) :
  readonly m -> (forall a, readonly (k a)) -> readonly (m ≫= k).
Proof.
  intros Hm Hk h. unfold mbind, M_bind.
  specialize (Hm h). destruct (m h) as [[a|e] h']; simpl in Hm; subst h'.
  - apply Hk.
  - reflexivity.
Qed.

Lemma readonly_getattr self name : readonly (getattr self name).
Proof.
  intros h. unfold getattr.
  destruct (h !! self) as [o|]; [ | reflexivity ].
  destruct (ob_dict o !! name); [ reflexivity | ].
  destruct (class_getattr (ob_class o) name); reflexivity.
Qed.

Lemma readonly_type_of self : readonly (type_of self).
Proof. intros h. unfold type_of. destruct (h !! self); reflexivity. Qed.

Lemma readonly_binop op (x y : M value) :
  readonly x -> readonly y -> readonly (binop op x y).
Proof.
  intros Hx Hy. unfold binop.
  apply readonly_bind; [ exact Hx | intros a ].
  apply readonly_bind; [ exact Hy | intros b ].
  apply readonly_lift.
Qed.

Lemma readonly_pow2 (x : M value) :
  readonly x -> readonly (e_pow2 libm_pow2 x).
Proof.
  intros Hx. unfold e_pow2.
  apply readonly_bind; [ exact Hx | intros a; apply readonly_lift ].
Qed.

Lemma resolve_own {A} (own : class -> option A) order f :
  resolve own order = Some f -> exists c, own c = Some f.
Proof.
  induction order as [|c rest IH]; simpl; [ discriminate | ].
  destruct (own c) as [g|] eqn:Hc; [ | exact IH ].
  intros [= <-]. exists c. exact Hc.
Qed.

Lemma readonly_call {A} (own : class -> option (loc -> M A)) name self :
  (forall c f, own c = Some f -> readonly (f self)) ->
  readonly (call own name self).
Proof.
  intros Hown. unfold call.
  apply readonly_bind; [ apply readonly_type_of | intros c ].
  destruct (resolve own (mro c)) as [f|] eqn:Hres.
  - destruct (resolve_own _ _ _ Hres) as [c' Hc']. exact (Hown c' f Hc').
  - apply readonly_lift.
Qed.

Ltac readonly_steps :=
  repeat first [ apply readonly_binop
               | apply readonly_pow2
               | apply readonly_getattr
               | apply readonly_type_of
               | apply readonly_ret
               | apply readonly_lift
               | assumption ].

Lemma readonly_get_distance self : readonly (get_distance self).
Proof.
  apply readonly_call. intros c f Hf.
  destruct c; inversion Hf; subst;
    unfold Training_get_distance, Swimming_get_distance; readonly_steps.
Qed.

Lemma readonly_get_mean_speed self : readonly (get_mean_speed self).
Proof.
  pose proof (readonly_get_distance self) as Hd.
  apply readonly_call. intros c f Hf.
  destruct c; inversion Hf; subst;
    unfold Training_get_mean_speed, Swimming_get_mean_speed; readonly_steps.
Qed.

Lemma readonly_get_spent_calories self : readonly (get_spent_calories self).
Proof.
  pose proof (readonly_get_mean_speed self) as Hs.
  apply readonly_call. intros c f Hf.
  destruct c; inversion Hf; subst;
    unfold Training_get_spent_calories, Running_get_spent_calories,
      SportsWalking_get_spent_calories, Swimming_get_spent_calories;
    readonly_steps.
Qed.

Lemma readonly_show_training_info self : readonly (show_training_info self).
Proof.
  apply readonly_call. intros c f Hf.
  destruct c; inversion Hf; subst. unfold Training_show_training_info.
  apply readonly_bind; [ apply readonly_type_of | intros k ].
  apply readonly_bind; [ apply readonly_getattr | intros d ].
  apply readonly_bind; [ apply readonly_get_distance | intros x ].
  apply readonly_bind; [ apply readonly_get_mean_speed | intros s ].
  apply readonly_bind; [ apply readonly_get_spent_calories | intros cal ].
  apply readonly_ret.
Qed.

Lemma readonly_unchanged {A} (m : M A) h self :
  readonly m -> unchanged h self (snd (m h)).
Proof.
  intros Hm. unfold unchanged. rewrite (Hm h). split; [ reflexivity | auto ].
Qed.

(** C10: [get_distance], [get_mean_speed], [get_spent_calories] and
    [show_training_info] leave the heap as they found it, whether they
    return or raise: every stored field of the workout (action, duration,
    weight, height, length_pool, count_pool) is unchanged; the summary is
    built from reads only. *)
Theorem methods_leave_fields_unchanged (h : heap) (self : loc) :
  unchanged h self (snd (get_distance self h))
  /\ unchanged h self (snd (get_mean_speed self h))
  /\ unchanged h self (snd (get_spent_calories self h))
  /\ unchanged h self (snd (show_training_info self h)).
Proof.
  repeat split;
    first [ apply readonly_get_distance | apply readonly_get_mean_speed
          | apply readonly_get_spent_calories | apply readonly_show_training_info
          | (intros wk Hwk;
             first [ rewrite readonly_get_distance | rewrite readonly_get_mean_speed
                   | rewrite readonly_get_spent_calories
                   | rewrite readonly_show_training_info ]; exact Hwk) ].
Qed.

(** ** Instantiation and read_package *)

Lemma setattr_last h o name v :
  setattr (length h) name v (h ++ [o])
  = (Ok tt, h ++ [{| ob_class := ob_class o;
                     ob_dict := <[name := v]> (ob_dict o) |}]).
Proof.
  unfold setattr.
  rewrite lookup_app_r by lia. rewrite Nat.sub_diag. simpl.
  rewrite insert_app_r_alt by lia. rewrite Nat.sub_diag. reflexivity.
Qed.

Lemma Training_init_last h o a d w :
  Training_init (length h) [a; d; w] (h ++ [o])
  = (Ok tt, h ++ [{| ob_class := ob_class o;
                     ob_dict := <["weight" := w]>
                                  (<["duration" := d]>
                                     (<["action" := a]> (ob_dict o))) |}]).
Proof.
  unfold Training_init, mbind, M_bind.
  rewrite setattr_last. rewrite setattr_last. rewrite setattr_last. reflexivity.
Qed.

Lemma instantiate_spec c args h :
  instantiate c args h
  = match view c args with
    | Some wk => (Ok (length h), h ++ [object_of wk])
    | None => (Raise TypeError, h ++ [{| ob_class := c; ob_dict := ∅ |}])
    end.
Proof.
  unfold instantiate, new, mbind, M_bind.
  destruct c; cbn [resolve mro base own_init];
    destruct args as [|a [|d [|w [|x [|y [|z rest]]]]]];
    try reflexivity;
    cbn [view];
    unfold SportsWalking_init, Swimming_init, mbind, M_bind;
    rewrite ?Training_init_last, ?setattr_last; reflexivity.
Qed.

Lemma instantiate_holds c args wk h :
  view c args = Some wk ->
  exists h', instantiate c args h = (Ok (length h), h')
             /\ holds h' (length h) wk /\ class_of wk = c.
Proof.
  intros Hv. rewrite instantiate_spec, Hv. eexists. split; [ reflexivity | ].
  split.
  - unfold holds. rewrite lookup_app_r by lia. rewrite Nat.sub_diag. reflexivity.
  - destruct c; destruct args as [|a [|d [|w [|x [|y [|z rest]]]]]];
      simpl in Hv; inversion Hv; reflexivity.
Qed.

Lemma dictionary_lookup code :
  dictionary !! code
  = if decide (code = "SWM") then Some Swimming
    else if decide (code = "RUN") then Some Running
    else if decide (code = "WLK") then Some SportsWalking
    else None.
Proof.
  unfold dictionary.
  repeat (case_decide; [ subst; reflexivity | ]).
  rewrite !lookup_insert_ne by congruence.
  apply lookup_singleton_ne. congruence.
Qed.

Lemma dictionary_recognized code :
  code ∈ recognized <-> is_Some (dictionary !! code).
Proof.
  rewrite dictionary_lookup. unfold recognized.
  rewrite !elem_of_cons, elem_of_nil.
  repeat case_decide; subst; split; intros Hc;
    try (eexists; reflexivity); try tauto; try (destruct Hc; discriminate).
Qed.

Lemma append_empty_r (s : string) : s +:+ "" = s.
Proof.
  induction s as [|c s IH]; [ reflexivity | ].
  change (String c (s +:+ "") = String c s). f_equal. exact IH.
Qed.

(** C2: for a code outside SWM, RUN, WLK and any data list, [read_package]
    raises the bad-argument error (KeyError) whose message ends with the
    offending code, before anything is built; for the three codes the
    lookup raises no such error and the class that the code selects is
    applied to the data. *)
Theorem read_package_codes (workout_type : string) (data : list value) (h : heap) :
  (workout_type ∉ recognized ->
     read_package workout_type data h
     = (Raise (KeyError ("Ошибка типа тренировки " +:+ workout_type)), h)
     /\ includes ("Ошибка типа тренировки " +:+ workout_type) workout_type)
  /\ (workout_type ∈ recognized ->
        (forall msg, fst (read_package workout_type data h) <> Raise (KeyError msg))
        /\ exists cls, dictionary !! workout_type = Some cls
                       /\ read_package workout_type data h = instantiate cls data h).
Proof.
  split.
  - intros Hnot. split.
    + unfold read_package.
      rewrite bool_decide_eq_true_2; [ reflexivity | ].
      destruct (dictionary !! workout_type) as [c|] eqn:Hl; [ | reflexivity ].
      exfalso. apply Hnot, dictionary_recognized. rewrite Hl. eexists; reflexivity.
    + exists "Ошибка типа тренировки ", "".
      rewrite append_empty_r. reflexivity.
  - intros Hin. apply dictionary_recognized in Hin. destruct Hin as [c Hc].
    assert (Hr : read_package workout_type data h = instantiate c data h).
    { unfold read_package. rewrite Hc.
      rewrite bool_decide_eq_false_2 by discriminate. reflexivity. }
    split; [ | exists c; split; [ exact Hc | exact Hr ] ].
    intros msg. rewrite Hr, instantiate_spec.
    destruct (view c data); simpl; discriminate.
Qed.

(** ** The summary of a workout *)

Lemma pure_fst {A} (m : M A) h : readonly m -> pure_at h m (fst (m h)).
Proof.
  intros Hm. unfold pure_at. specialize (Hm h).
  destruct (m h) as [r h']. simpl in *. subst h'. reflexivity.
Qed.

Lemma attr_duration wk : attr_of wk "duration" = Ok (duration_of wk).
Proof. destruct wk; vm_compute; reflexivity. Qed.

Lemma show_training_info_spec h self wk :
  holds h self wk ->
  show_training_info self h
  = (x ← fst (get_distance self h);
     s ← fst (get_mean_speed self h);
     k ← fst (get_spent_calories self h);
     Ok {| training_type := class_name (class_of wk);
           duration := duration_of wk;
           distance := x; speed := s; calories := k |}, h).
Proof.
  intros Hh. unfold show_training_info.
  eapply pure_call; [ exact Hh | destruct wk; reflexivity | ].
  unfold Training_show_training_info.
  eapply pure_bind; [ apply pure_type_of; exact Hh | ].
  eapply pure_bind;
    [ unfold pure_at; rewrite <- attr_duration; apply pure_getattr; exact Hh | ].
  apply pure_bind_result;
    [ apply pure_fst, readonly_get_distance | intros x _ ].
  apply pure_bind_result;
    [ apply pure_fst, readonly_get_mean_speed | intros s _ ].
  apply pure_bind_result;
    [ apply pure_fst, readonly_get_spent_calories | intros k _ ].
  reflexivity.
Qed.

(** C8: the package ("SWM", [720, 1, 80, 25, 40]) goes through
    [read_package] to a Swimming instance whose summary has distance
    720*1.38/1000 km, speed 25*40/1000/1 = 1.0 km/h and calories
    (1.0+1.1)*2*80*1 = 336.0, from any heap. *)
Theorem swimming_package_summary (h : heap) :
  exists self h',
    read_package "SWM" [VInt 720; VInt 1; VInt 80; VInt 25; VInt 40] h
    = (Ok self, h')
    /\ show_training_info self h'
       = (Ok {| training_type := "Swimming";
                duration := VInt 1;
                distance := VFloat (720 * 1.38 / 1000);
                speed := VFloat 1.0;
                calories := VFloat 336.0 |}, h')
    /\ (25 * 40 / 1000 / 1 = 1.0)%float
    /\ ((1.0 + 1.1) * 2 * 80 * 1 = 336.0)%float.
Proof.
  set (wk := ASwimming (VInt 720) (VInt 1) (VInt 80) (VInt 25) (VInt 40)).
  destruct (instantiate_holds Swimming (args_of wk) wk h eq_refl)
    as (h' & Hi & Hh & _).
  exists (length h), h'. split; [ exact Hi | ].
  split; [ | split; vm_compute; reflexivity ].
  rewrite (show_training_info_spec _ _ _ Hh).
  rewrite (get_distance_spec _ _ _ Hh).
  rewrite (get_spent_calories_spec _ _ _ Hh).
  rewrite (get_mean_speed_spec _ _ _ Hh).
  f_equal.
Qed.

(** ** The message *)

Lemma length_append (s1 s2 : string) :
  String.length (s1 +:+ s2) = String.length s1 + String.length s2.
Proof.
  induction s1 as [|c s1 IH]; [ reflexivity | ].
  change (S (String.length (s1 +:+ s2)) = S (String.length s1 + String.length s2)).
  rewrite IH. reflexivity.
Qed.

Lemma is_digit_digit_char (k : N) : (k < 10)%N -> is_digit (digit_char k) = true.
Proof.
  intros Hk.
  assert (Hcases : In k [0; 1; 2; 3; 4; 5; 6; 7; 8; 9]%N).
  { simpl. lia. }
  simpl in Hcases.
  repeat (destruct Hcases as [<-|Hcases]; [ reflexivity | ]).
  contradiction.
Qed.

Lemma three_digits_ok (n : N) :
  String.length (three_digits n) = 3 /\ all_digits (three_digits n) = true.
Proof.
  split; [ reflexivity | ].
  unfold three_digits. cbn [all_digits].
  rewrite !is_digit_digit_char by (apply N.mod_lt; discriminate).
  reflexivity.
Qed.

Lemma string_of_uint_digits (d : Decimal.uint) :
  all_digits (NilEmpty.string_of_uint d) = true.
Proof. induction d; simpl; auto. Qed.

Lemma decimal_of_N_ok (n : N) :
  decimal_of_N n <> "" /\ all_digits (decimal_of_N n) = true.
Proof.
  unfold decimal_of_N, NilZero.string_of_uint.
  destruct (N.to_uint n) eqn:E;
    (split; [ discriminate | first [ reflexivity | apply (string_of_uint_digits (_ u)) ] ]).
Qed.

Lemma fixed3_ok (s : bool) (n : N) : three_fractional_digits (fixed3 s n).
Proof.
  exists (sign_string s), (decimal_of_N (n / 1000)), (three_digits (n mod 1000)).
  destruct (decimal_of_N_ok (n / 1000)) as [Hne Hd].
  destruct (three_digits_ok (n mod 1000)) as [Hl Hf].
  repeat split; try assumption.
  destruct s; [ right | left ]; reflexivity.
Qed.

Lemma format_float_3f_ok (f : float) :
  float_finite f = true -> three_fractional_digits (format_float_3f f).
Proof.
  unfold float_finite, format_float_3f.
  destruct (Prim2SF f); intros Hf; try discriminate; apply fixed3_ok.
Qed.

Lemma format_3f_ok (v : value) :
  finite_number v ->
  exists s, format_3f v = Ok s /\ three_fractional_digits s.
Proof.
  intros (f & Hf & Hfin). exists (format_float_3f f). split.
  - destruct v as [ |z|g]; simpl in *; [ discriminate | | ].
    + rewrite Hf. reflexivity.
    + inversion Hf; subst. reflexivity.
  - apply format_float_3f_ok, Hfin.
Qed.

(** The thousandths printed for [m * 2^e] are that number times 1000 when
    it is an integer, and otherwise the nearest integer, the even one on a
    tie. *)
Lemma thousandths_exact (m : positive) (e : Z) :
  (0 <= e)%Z -> Z.of_N (thousandths m e) = (Zpos m * 1000 * 2 ^ e)%Z.
Proof.
  intros He. destruct e as [ |p|p]; unfold thousandths.
  - rewrite Z.pow_0_r, N2Z.inj_mul. lia.
  - rewrite !N2Z.inj_mul, N2Z.inj_pow. reflexivity.
  - lia.
Qed.

Lemma thousandths_nearest (m p : positive) :
  let n := (Npos m * 1000)%N in
  let d := (2 ^ Npos p)%N in
  let q := thousandths m (Zneg p) in
  (2 * q * d <= 2 * n + d)%N /\ (2 * n <= 2 * q * d + d)%N
  /\ ((2 * q * d = 2 * n + d)%N \/ (2 * n = 2 * q * d + d)%N -> N.even q = true).
Proof.
  intros n d q. subst q. unfold thousandths. fold n. fold d.
  assert (Hd : d <> 0%N) by (apply N.pow_nonzero; discriminate).
  pose proof (N.div_mod n d Hd) as Hn.
  pose proof (N.mod_lt n d Hd) as Hr.
  set (q0 := (n / d)%N) in *. set (r := (n mod d)%N) in *.
  destruct (N.compare_spec (2 * r) d) as [Heq|Hlt|Hgt].
  - destruct (N.even q0) eqn:Hev.
    + repeat split; try nia. intros _. exact Hev.
    + repeat split; try nia. intros _.
      rewrite N.even_add, Hev. reflexivity.
  - repeat split; try nia.
  - repeat split; try nia.
Qed.

(** Anything with three fractional digits has at least five characters. *)
Lemma three_fractional_digits_length (s : string) :
  three_fractional_digits s -> 5 <= String.length s.
Proof.
  intros (sign & ip & fp & -> & _ & Hip & _ & Hfp & _).
  rewrite !length_append, Hfp.
  destruct ip; [ contradiction | ]. simpl. lia.
Qed.

Lemma get_message_template (m : InfoMessage) :
  get_message m
  = (d ← format_3f (duration m);
     x ← format_3f (distance m);
     s ← format_3f (speed m);
     c ← format_3f (calories m);
     Ok (message_template (training_type m) d x s c)).
Proof. reflexivity. Qed.

Lemma format_3f_of_float (v : value) (f : float) :
  to_float v = Ok f -> format_3f v = Ok (format_float_3f f).
Proof.
  destruct v as [ |z|g]; simpl; intros Hf.
  - discriminate.
  - rewrite Hf. reflexivity.
  - inversion Hf; subst. reflexivity.
Qed.

(** What [.3f] prints, by the kind of float. *)
Lemma format_float_3f_rendered (f : float) : rendered_as f (format_float_3f f).
Proof.
  unfold rendered_as, format_float_3f, float_finite.
  destruct (Prim2SF f) as [s|s| |s m e] eqn:E.
  - right; right; right. split; [ reflexivity | apply fixed3_ok ].
  - destruct s.
    + right; right; left.
      split; [ apply Prim2SF_inj; rewrite E; reflexivity | reflexivity ].
    + right; left.
      split; [ apply Prim2SF_inj; rewrite E; reflexivity | reflexivity ].
  - left. split; [ apply is_nan_spec; exact E | reflexivity ].
  - right; right; right. split; [ reflexivity | apply fixed3_ok ].
Qed.

(** C9 (as the code has it): [get_message()] puts the label and the four
    fields, each formatted with [.3f], into the fixed text.  A record
    whose four numbers are finite gets the exact string of the
    specification with exactly three fractional digits in each field,
    and [duration = 1] renders as "1.000".  For any record whose four
    fields convert to floats the string is returned, and each field is
    rendered by the kind of its float: three fractional digits for a
    finite one, [inf] or [-inf] for an infinity, [nan] for a NaN. *)
Theorem get_message_rendering (m : InfoMessage) :
  (finite_number (duration m) -> finite_number (distance m) ->
   finite_number (speed m) -> finite_number (calories m) ->
   message_as_specified m)
  /\ format_3f (VInt 1) = Ok "1.000"
  /\ (forall fd fx fs fc,
        to_float (duration m) = Ok fd -> to_float (distance m) = Ok fx ->
        to_float (speed m) = Ok fs -> to_float (calories m) = Ok fc ->
        exists d x s c,
          get_message m = Ok (message_template (training_type m) d x s c)
          /\ rendered_as fd d /\ rendered_as fx x
          /\ rendered_as fs s /\ rendered_as fc c).
Proof.
  split; [ | split; [ vm_compute; reflexivity | ] ].
  - intros Hd Hx Hs Hc.
    destruct (format_3f_ok _ Hd) as (d & Ed & Td).
    destruct (format_3f_ok _ Hx) as (x & Ex & Tx).
    destruct (format_3f_ok _ Hs) as (s & Es & Ts).
    destruct (format_3f_ok _ Hc) as (c & Ec & Tc).
    exists d, x, s, c. unfold rendered.
    rewrite get_message_template, Ed, Ex, Es, Ec. repeat split; assumption.
  - intros fd fx fs fc Hd Hx Hs Hc.
    exists (format_float_3f fd), (format_float_3f fx),
           (format_float_3f fs), (format_float_3f fc).
    split.
    + rewrite get_message_template.
      rewrite (format_3f_of_float _ _ Hd), (format_3f_of_float _ _ Hx),
        (format_3f_of_float _ _ Hs), (format_3f_of_float _ _ Hc).
      reflexivity.
    + repeat split; apply format_float_3f_rendered.
Qed.

(** ** Building workouts: arity, stored fields, what stays untouched *)

Lemma read_package_known code cls data h :
  dictionary !! code = Some cls ->
  read_package code data h = instantiate cls data h.
Proof.
  intros Hc. unfold read_package. rewrite Hc.
  rewrite bool_decide_eq_false_2 by discriminate. reflexivity.
Qed.

Lemma read_package_unknown code data h :
  dictionary !! code = None ->
  read_package code data h
  = (Raise (KeyError ("Ошибка типа тренировки " +:+ code)), h).
Proof.
  intros Hc. unfold read_package.
  rewrite bool_decide_eq_true_2 by exact Hc. reflexivity.
Qed.

Lemma dictionary_concrete code cls :
  dictionary !! code = Some cls -> cls <> Training.
Proof.
  rewrite dictionary_lookup. repeat case_decide; congruence.
Qed.

Lemma view_arity c data :
  (if view c data is Some _ then true else false)
  = bool_decide (length data = arity c).
Proof.
  destruct c; destruct data as [|a [|d [|w [|x [|y [|z rest]]]]]]; reflexivity.
Qed.

Lemma view_class c data wk :
  view c data = Some wk -> class_of wk = c /\ args_of wk = data.
Proof.
  destruct c; destruct data as [|a [|d [|w [|x [|y [|z rest]]]]]];
    simpl; intros Hv; inversion Hv; split; reflexivity.
Qed.

Lemma holds_last h wk : holds (h ++ [object_of wk]) (length h) wk.
Proof.
  unfold holds. rewrite lookup_app_r by lia. rewrite Nat.sub_diag. reflexivity.
Qed.

(** The heap after [read_package]: the old one, or the old one with one
    more object at its end. *)
Lemma read_package_heap code data h :
  snd (read_package code data h) = h
  \/ exists o, snd (read_package code data h) = h ++ [o].
Proof.
  destruct (dictionary !! code) as [cls|] eqn:Hc.
  - right. rewrite (read_package_known _ _ _ _ Hc), instantiate_spec.
    destruct (view cls data); eexists; reflexivity.
  - left. rewrite (read_package_unknown _ _ _ Hc). reflexivity.
Qed.


(** X1: for a known code the constructor's arity decides the outcome of
    [read_package]: with as many data values as the class takes (3 for
    RUN, 4 for WLK, 5 for SWM) it returns the new instance, with any other
    number it raises TypeError. *)
Theorem read_package_arity code cls data h :
  dictionary !! code = Some cls ->
  fst (read_package code data h)
  = if bool_decide (length data = arity cls) then Ok (length h)
    else Raise TypeError.
Proof.
  intros Hc. rewrite (read_package_known _ _ _ _ Hc), instantiate_spec.
  rewrite <- view_arity. destruct (view cls data); reflexivity.
Qed.

(** X2: an instance built by [read_package] sits at a location that was
    free, has the class the code selects, and holds each data value under
    the attribute of its position: reading the attribute gives the value
    back. *)
Theorem read_package_stores_data code cls data h self h' :
  dictionary !! code = Some cls ->
  read_package code data h = (Ok self, h') ->
  h !! self = None
  /\ type_of self h' = (Ok cls, h')
  /\ length data = length (field_names cls)
  /\ forall i name,
       field_names cls !! i = Some name ->
       exists v, data !! i = Some v /\ getattr self name h' = (Ok v, h').
Proof.
  intros Hc. rewrite (read_package_known _ _ _ _ Hc), instantiate_spec.
  destruct (view cls data) as [wk|] eqn:Hv; [ | discriminate ].
  intros [= <- <-].
  destruct (view_class _ _ _ Hv) as [Hcls _].
  pose proof (holds_last h wk) as Hh.
  split; [ apply lookup_ge_None; lia | ].
  split; [ rewrite <- Hcls; exact (pure_type_of _ _ _ Hh) | ].
  destruct cls; destruct data as [|a [|d [|w [|x [|y [|z rest]]]]]];
    simpl in Hv; try discriminate Hv; inversion Hv; subst wk;
    (split; [ reflexivity | ]);
    intros i name Hi;
    repeat (destruct i as [|i];
            [ simpl in Hi; inversion Hi; subst name; eexists;
              split; [ reflexivity | ];
              rewrite (pure_getattr _ _ _ _ Hh); vm_compute; reflexivity | ]);
    discriminate Hi.
Qed.


(** ** Outcomes of the metrics: which inputs return, which raise *)

Lemma spec_distance_outcome a step :
  spec_distance a step = (fa ← to_float a; Ok (VFloat (fa * step / 1000))).
Proof.
  destruct a as [ |z|f]; spec_unfold; simpl to_float; simpl py_mul.
  - reflexivity.
  - destruct (int_to_float z) as [fz|e]; [ | reflexivity ].
    apply py_truediv_float_1000.
  - apply py_truediv_float_1000.
Qed.

Lemma py_truediv_float_outcome x d :
  py_truediv (VFloat x) d
  = if py_is_zero d then Raise ZeroDivisionError
    else fd ← to_float d; Ok (VFloat (x / fd)).
Proof.
  destruct d as [ |z|f]; simpl; [ reflexivity | reflexivity | ].
  destruct (float_is_zero f); reflexivity.
Qed.

Lemma py_truediv_ok_float a b v : py_truediv a b = Ok v -> is_float v = true.
Proof.
  destruct a as [ |x|x], b as [ |y|y]; simpl; try discriminate.
  - destruct (int_true_divide x y); simpl; intros [= <-]; reflexivity.
  - destruct (int_to_float x); simpl; [ | discriminate ].
    destruct (float_is_zero y); intros [= <-]; reflexivity.
  - destruct (y =? 0)%Z; [ discriminate | ].
    destruct (int_to_float y); simpl; intros [= <-]; reflexivity.
  - destruct (float_is_zero y); intros [= <-]; reflexivity.
Qed.

Lemma py_mul_ok_float a b v :
  py_mul a b = Ok v -> is_float a = true \/ is_float b = true ->
  is_float v = true.
Proof.
  destruct a as [ |x|x], b as [ |y|y]; simpl; try discriminate;
    intros Hv [Hf|Hf]; try discriminate Hf;
    repeat match goal with
           | H : context [int_to_float ?z] |- _ => destruct (int_to_float z)
           end; simpl in Hv; inversion Hv; reflexivity.
Qed.

Lemma py_add_ok_float a b v :
  py_add a b = Ok v -> is_float a = true \/ is_float b = true ->
  is_float v = true.
Proof.
  destruct a as [ |x|x], b as [ |y|y]; simpl; try discriminate;
    intros Hv [Hf|Hf]; try discriminate Hf;
    repeat match goal with
           | H : context [int_to_float ?z] |- _ => destruct (int_to_float z)
           end; simpl in Hv; inversion Hv; reflexivity.
Qed.

Lemma binop_ok op (rx ry : result value) v :
  binop op rx ry = Ok v ->
  exists a b, rx = Ok a /\ ry = Ok b /\ op a b = Ok v.
Proof.
  unfold binop. destruct rx as [a|e]; simpl; [ | discriminate ].
  destruct ry as [b|e]; simpl; [ | discriminate ].
  intros Hv. exists a, b. repeat split. exact Hv.
Qed.

Lemma get_mean_speed_numerator h self wk :
  holds h self wk ->
  get_mean_speed self h
  = (n ← speed_numerator wk; py_truediv n (duration_of wk), h).
Proof.
  intros Hh. rewrite (get_mean_speed_spec _ _ _ Hh). destruct wk; reflexivity.
Qed.

Lemma speed_numerator_float wk v :
  speed_numerator wk = Ok v -> is_float v = true.
Proof.
  destruct wk; simpl speed_numerator; unfold spec_distance, e_div; intros Hv;
    apply binop_ok in Hv; destruct Hv as (x & y & _ & _ & Hv);
    exact (py_truediv_ok_float _ _ _ Hv).
Qed.

Lemma speed_numerator_plain wk :
  plain wk -> exists q, speed_numerator wk = Ok (VFloat q).
Proof.
  intros [[fa Ha] Hp]. destruct wk as [a d w|a d w|a d w ht|a d w lp cp];
    simpl in *;
    try (rewrite (spec_distance_float _ _ _ Ha); eexists; reflexivity).
  destruct Hp as [Hlp [fcp Hcp]]. destruct lp as [ |z|flp]; try discriminate Hlp.
  spec_unfold. rewrite (py_mul_float_l _ _ _ Hcp), py_truediv_float_1000.
  eexists; reflexivity.
Qed.

Lemma main_fst self h :
  fst (main self h) = (fst (show_training_info self h) ≫= get_message).
Proof.
  unfold main, mbind, M_bind.
  destruct (show_training_info self h) as [[info|e] h']; reflexivity.
Qed.

Lemma show_training_info_fst h self wk :
  holds h self wk ->
  fst (show_training_info self h)
  = (x ← spec_distance (action_of wk) (spec_step_length wk);
     s ← fst (get_mean_speed self h);
     k ← fst (get_spent_calories self h);
     Ok {| training_type := class_name (class_of wk);
           duration := duration_of wk;
           distance := x; speed := s; calories := k |}).
Proof.
  intros Hh. rewrite (show_training_info_spec _ _ _ Hh).
  rewrite (get_distance_spec _ _ _ Hh). reflexivity.
Qed.

(** X6: a workout whose duration is zero (the int 0, 0.0 or -0.0) cannot
    be summarised: [get_mean_speed] raises on the division, so
    [show_training_info] and [main] never return; when the dividend
    evaluates (the fields are plain numbers) the error is
    ZeroDivisionError. *)
Theorem zero_duration_raises h self wk :
  holds h self wk ->
  py_is_zero (duration_of wk) = true ->
  fst (get_mean_speed self h)
  = (n ← speed_numerator wk; Raise ZeroDivisionError)
  /\ (forall info, fst (show_training_info self h) <> Ok info)
  /\ (forall line, fst (main self h) <> Ok line)
  /\ (plain wk ->
      fst (get_mean_speed self h) = Raise ZeroDivisionError
      /\ fst (show_training_info self h) = Raise ZeroDivisionError
      /\ fst (main self h) = Raise ZeroDivisionError).
Proof.
  intros Hh Hz.
  assert (Hms : fst (get_mean_speed self h)
                = (n ← speed_numerator wk; Raise ZeroDivisionError)).
  { rewrite (get_mean_speed_numerator _ _ _ Hh). simpl fst.
    destruct (speed_numerator wk) as [n|e] eqn:Hn; [ | reflexivity ].
    pose proof (speed_numerator_float _ _ Hn) as Hf.
    destruct n as [ |z|q]; try discriminate Hf.
    change (py_truediv (VFloat q) (duration_of wk) = Raise ZeroDivisionError).
    rewrite py_truediv_float_outcome, Hz. reflexivity. }
  assert (Hshow : forall info, fst (show_training_info self h) <> Ok info).
  { intros info. rewrite (show_training_info_fst _ _ _ Hh), Hms.
    destruct (spec_distance _ _); simpl; [ | discriminate ].
    destruct (speed_numerator wk); simpl; discriminate. }
  split; [ exact Hms | ]. split; [ exact Hshow | ].
  split.
  { intros line. rewrite main_fst.
    destruct (fst (show_training_info self h)) as [info|e] eqn:Hs;
      [ exfalso; exact (Hshow info eq_refl) | discriminate ]. }
  intros Hp. destruct (speed_numerator_plain _ Hp) as [q Hq].
  assert (Hms' : fst (get_mean_speed self h) = Raise ZeroDivisionError)
    by (rewrite Hms, Hq; reflexivity).
  assert (Hs : fst (show_training_info self h) = Raise ZeroDivisionError).
  { rewrite (show_training_info_fst _ _ _ Hh), Hms'.
    destruct Hp as [[fa Ha] _].
    rewrite (spec_distance_float _ _ _ Ha). reflexivity. }
  split; [ exact Hms' | ]. split; [ exact Hs | ].
  rewrite main_fst, Hs. reflexivity.
Qed.

Lemma get_mean_speed_foot_outcome h self wk :
  holds h self wk ->
  on_foot wk = true ->
  get_mean_speed self h
  = (fa ← to_float (action_of wk);
     if py_is_zero (duration_of wk) then Raise ZeroDivisionError
     else fd ← to_float (duration_of wk);
          Ok (VFloat (fa * 0.65 / 1000 / fd)), h).
Proof.
  intros Hh Hfoot. rewrite (get_mean_speed_numerator _ _ _ Hh).
  destruct wk; try discriminate Hfoot; simpl speed_numerator;
    rewrite spec_distance_outcome;
    (destruct (to_float _) as [fa|e]; [ | reflexivity ]);
    unfold mbind, result_bind;
    rewrite py_truediv_float_outcome; reflexivity.
Qed.

(** X7: the full outcome of [get_distance] and of the inherited
    [get_mean_speed]: the distance is returned exactly when the action
    converts to a float (None raises TypeError, an int too large
    OverflowError); the speed of a running or walking workout
    additionally needs a duration that is not zero and converts; the sign
    of the duration is not checked. *)
Theorem distance_and_speed_outcomes h self wk :
  holds h self wk ->
  get_distance self h
  = (fa ← to_float (action_of wk);
     Ok (VFloat (fa * spec_step_length wk / 1000)), h)
  /\ (on_foot wk = true ->
      get_mean_speed self h
      = (fa ← to_float (action_of wk);
         if py_is_zero (duration_of wk) then Raise ZeroDivisionError
         else fd ← to_float (duration_of wk);
              Ok (VFloat (fa * 0.65 / 1000 / fd)), h)).
Proof.
  intros Hh. split.
  - rewrite (get_distance_spec _ _ _ Hh), spec_distance_outcome. reflexivity.
  - intros Hfoot. exact (get_mean_speed_foot_outcome _ _ _ Hh Hfoot).
Qed.

Lemma calories_float h self wk v :
  holds h self wk -> concrete wk = true ->
  fst (get_spent_calories self h) = Ok v -> is_float v = true.
Proof.
  intros Hh Hc. rewrite (get_spent_calories_spec _ _ _ Hh). simpl fst.
  destruct wk as [a d w|a d w|a d w ht|a d w lp cp]; try discriminate Hc;
    unfold spec_running_calories, spec_walking_calories,
      spec_swimming_calories, e_add, e_mul, e_div; intros Hv.
  - apply binop_ok in Hv. destruct Hv as (x1 & ? & H1 & _ & Hv).
    apply binop_ok in H1. destruct H1 as (x2 & ? & H2 & _ & H1).
    apply binop_ok in H2. destruct H2 as (x3 & ? & _ & _ & H2).
    apply py_truediv_ok_float in H2.
    pose proof (py_mul_ok_float _ _ _ H1 (or_introl H2)) as F1.
    exact (py_mul_ok_float _ _ _ Hv (or_introl F1)).
  - apply binop_ok in Hv. destruct Hv as (x1 & ? & H1 & _ & Hv).
    apply binop_ok in H1. destruct H1 as (x2 & ? & H2 & _ & H1).
    apply binop_ok in H2. destruct H2 as (x3 & ? & H3 & _ & H2).
    apply binop_ok in H3. destruct H3 as (? & ? & E1 & _ & H3).
    inversion E1; subst.
    pose proof (py_mul_ok_float _ _ _ H3 (or_introl eq_refl)) as F3.
    pose proof (py_add_ok_float _ _ _ H2 (or_introl F3)) as F2.
    pose proof (py_mul_ok_float _ _ _ H1 (or_introl F2)) as F1.
    exact (py_mul_ok_float _ _ _ Hv (or_introl F1)).
  - apply binop_ok in Hv. destruct Hv as (x1 & ? & H1 & _ & Hv).
    apply binop_ok in H1. destruct H1 as (x2 & ? & H2 & _ & H1).
    apply binop_ok in H2. destruct H2 as (x3 & ? & H3 & _ & H2).
    apply binop_ok in H3. destruct H3 as (? & ? & _ & E1 & H3).
    inversion E1; subst.
    pose proof (py_add_ok_float _ _ _ H3 (or_intror eq_refl)) as F3.
    pose proof (py_mul_ok_float _ _ _ H2 (or_introl F3)) as F2.
    pose proof (py_mul_ok_float _ _ _ H1 (or_introl F2)) as F1.
    exact (py_mul_ok_float _ _ _ Hv (or_introl F1)).
Qed.

Lemma speed_float h self wk v :
  holds h self wk -> fst (get_mean_speed self h) = Ok v -> is_float v = true.
Proof.
  intros Hh. rewrite (get_mean_speed_numerator _ _ _ Hh). simpl fst.
  destruct (speed_numerator wk) as [n|e]; simpl; [ | discriminate ].
  apply py_truediv_ok_float.
Qed.

Lemma distance_float h self wk v :
  holds h self wk -> fst (get_distance self h) = Ok v -> is_float v = true.
Proof.
  intros Hh. rewrite (get_distance_spec _ _ _ Hh), spec_distance_outcome.
  simpl fst. destruct (to_float _); simpl; [ | discriminate ].
  intros [= <-]. reflexivity.
Qed.

(** X8: on an instance of a concrete class, whatever [get_distance],
    [get_mean_speed] and [get_spent_calories] return is a float, also when
    every field is an int: none of them returns None or an int. *)
Theorem concrete_metrics_are_floats h self wk :
  holds h self wk ->
  concrete wk = true ->
  (forall v, fst (get_distance self h) = Ok v -> is_float v = true)
  /\ (forall v, fst (get_mean_speed self h) = Ok v -> is_float v = true)
  /\ (forall v, fst (get_spent_calories self h) = Ok v -> is_float v = true).
Proof.
  intros Hh Hc. repeat split; intros v Hv.
  - exact (distance_float _ _ _ _ Hh Hv).
  - exact (speed_float _ _ _ _ Hh Hv).
  - exact (calories_float _ _ _ _ Hh Hc Hv).
Qed.

(** ** Summaries and printing: when they succeed *)

Lemma format_3f_outcome v :
  format_3f v = (f ← to_float v; Ok (format_float_3f f)).
Proof. destruct v; reflexivity. Qed.

Lemma to_float_errors v e :
  to_float v = Raise e -> e = TypeError \/ e = OverflowError.
Proof.
  destruct v as [ |z|f]; simpl.
  - intros [= <-]. left; reflexivity.
  - unfold int_to_float.
    destruct (binary_normalize prec emax z 0 false); intros [= <-].
    right; reflexivity.
  - discriminate.
Qed.

Lemma get_message_outcome m :
  get_message m
  = (fd ← to_float (duration m);
     fx ← to_float (distance m);
     fs ← to_float (speed m);
     fc ← to_float (calories m);
     Ok (message_template (training_type m)
           (format_float_3f fd) (format_float_3f fx)
           (format_float_3f fs) (format_float_3f fc))).
Proof.
  rewrite get_message_template, !format_3f_outcome.
  destruct (to_float (duration m)); [ | reflexivity ].
  destruct (to_float (distance m)); [ | reflexivity ].
  destruct (to_float (speed m)); [ | reflexivity ].
  destruct (to_float (calories m)); reflexivity.
Qed.

Lemma is_float_fits v : is_float v = true -> fits_float v.
Proof. destruct v as [ |z|f]; try discriminate. intros _. exists f. reflexivity. Qed.

(** A summary of floats with a duration that converts is always rendered. *)
Lemma get_message_floats label d x s k :
  fits_float d -> is_float x = true -> is_float s = true -> is_float k = true ->
  exists line,
    get_message {| training_type := label; duration := d; distance := x;
                   speed := s; calories := k |} = Ok line.
Proof.
  intros [fd Hd] Hx Hs Hk. rewrite get_message_outcome. simpl.
  destruct x as [ |?|fx]; try discriminate Hx.
  destruct s as [ |?|fs]; try discriminate Hs.
  destruct k as [ |?|fk]; try discriminate Hk.
  rewrite Hd. eexists. reflexivity.
Qed.

Lemma speed_ok_duration_fits h self wk s :
  holds h self wk -> fst (get_mean_speed self h) = Ok s ->
  fits_float (duration_of wk).
Proof.
  intros Hh. rewrite (get_mean_speed_numerator _ _ _ Hh). simpl fst.
  destruct (speed_numerator wk) as [n|e] eqn:Hn; [ | discriminate ].
  pose proof (speed_numerator_float _ _ Hn) as Hf.
  destruct n as [ |z|q]; try discriminate Hf.
  change (py_truediv (VFloat q) (duration_of wk) = Ok s -> fits_float (duration_of wk)).
  rewrite py_truediv_float_outcome.
  destruct (py_is_zero (duration_of wk)); [ discriminate | ].
  destruct (to_float (duration_of wk)) as [fd|e] eqn:Hd; [ | discriminate ].
  intros _. exists fd. exact Hd.
Qed.

Lemma method_at {A} (m : M A) h v :
  readonly m -> fst (m h) = Ok v -> m h = (Ok v, h).
Proof.
  intros Hm Hv. pose proof (pure_fst m h Hm) as Hp. unfold pure_at in Hp.
  rewrite Hp, Hv. reflexivity.
Qed.

(** X4: a summary carries the name of the class of the instance (not of
    the class that defines [show_training_info]), the stored duration as
    it is, and what the three metric methods return on that instance; it
    is returned exactly when the three of them return. *)
Theorem summary_contents h self wk :
  holds h self wk ->
  (forall info h',
     show_training_info self h = (Ok info, h') ->
     h' = h
     /\ training_type info = class_name (class_of wk)
     /\ duration info = duration_of wk
     /\ get_distance self h = (Ok (distance info), h)
     /\ get_mean_speed self h = (Ok (speed info), h)
     /\ get_spent_calories self h = (Ok (calories info), h))
  /\ (forall x s k,
        get_distance self h = (Ok x, h) ->
        get_mean_speed self h = (Ok s, h) ->
        get_spent_calories self h = (Ok k, h) ->
        show_training_info self h
        = (Ok {| training_type := class_name (class_of wk);
                 duration := duration_of wk;
                 distance := x; speed := s; calories := k |}, h)).
Proof.
  intros Hh. split.
  - intros info h'. rewrite (show_training_info_spec _ _ _ Hh).
    destruct (fst (get_distance self h)) as [x|e] eqn:Hx; [ | discriminate ].
    destruct (fst (get_mean_speed self h)) as [s|e] eqn:Hs; [ | discriminate ].
    destruct (fst (get_spent_calories self h)) as [k|e] eqn:Hk; [ | discriminate ].
    simpl. intros [= <- <-]. simpl.
    repeat split.
    + exact (method_at _ _ _ (readonly_get_distance self) Hx).
    + exact (method_at _ _ _ (readonly_get_mean_speed self) Hs).
    + exact (method_at _ _ _ (readonly_get_spent_calories self) Hk).
  - intros x s k Hx Hs Hk. rewrite (show_training_info_spec _ _ _ Hh).
    rewrite Hx, Hs, Hk. reflexivity.
Qed.

(** X5: an instance of the base class Training cannot be printed: [main]
    never returns a line on it.  When the mean speed is computed, the
    summary holds None as calories and formatting it raises TypeError;
    otherwise the error of the mean speed comes out. *)
Theorem base_workout_cannot_be_printed h self a d w :
  holds h self (ATraining a d w) ->
  fst (main self h)
  = match fst (get_mean_speed self h) with
    | Ok _ => Raise TypeError
    | Raise e => Raise e
    end
  /\ forall line, fst (main self h) <> Ok line.
Proof.
  intros Hh.
  assert (Hm : fst (main self h)
               = match fst (get_mean_speed self h) with
                 | Ok _ => Raise TypeError
                 | Raise e => Raise e
                 end).
  { rewrite main_fst, (show_training_info_fst _ _ _ Hh).
    rewrite (get_spent_calories_spec _ _ _ Hh).
    rewrite (get_mean_speed_foot_outcome _ _ _ Hh eq_refl).
    rewrite spec_distance_outcome. simpl.
    destruct (to_float a) as [fa|e]; [ | reflexivity ]. simpl.
    destruct (py_is_zero d); [ reflexivity | ].
    destruct (to_float d) as [fd|e] eqn:Hd; [ | reflexivity ]. simpl.
    rewrite get_message_outcome. simpl. rewrite Hd. reflexivity. }
  split; [ exact Hm | ].
  intros line. rewrite Hm. destruct (fst (get_mean_speed self h)); discriminate.
Qed.

(** X9: [main] prints a line for every Running workout, and every Swimming
    workout with a float pool length, whose fields are numbers that fit a
    float and whose duration is not zero; the heap is left as it was.
    Negative and non-finite values are accepted. *)
Theorem main_prints_running_swimming h self wk :
  holds h self wk ->
  runs_or_swims wk = true ->
  plain wk ->
  fits_float (duration_of wk) ->
  fits_float (weight_of wk) ->
  py_is_zero (duration_of wk) = false ->
  exists line, main self h = (Ok line, h).
Proof.
  intros Hh Hk Hp [fd Hd] [fw Hw] Hz.
  destruct (speed_numerator_plain _ Hp) as [q Hq].
  destruct Hp as [[fa Ha] _].
  assert (Hms : get_mean_speed self h = (Ok (VFloat (q / fd)), h)).
  { rewrite (get_mean_speed_numerator _ _ _ Hh), Hq.
    change (n ← Ok (VFloat q); py_truediv n (duration_of wk))
      with (py_truediv (VFloat q) (duration_of wk)).
    rewrite py_truediv_float_outcome, Hz, Hd. reflexivity. }
  assert (Hcal : exists k, get_spent_calories self h = (Ok (VFloat k), h)).
  { rewrite (get_spent_calories_spec _ _ _ Hh), Hms. simpl fst.
    destruct wk as [a d w|a d w|a d w ht|a d w lp cp]; try discriminate Hk;
      simpl in Hd, Hw.
    - rewrite (spec_running_calories_float _ _ _ _ _ Hw Hd). eexists; reflexivity.
    - rewrite (spec_swimming_calories_float _ _ _ _ _ Hw Hd). eexists; reflexivity. }
  destruct Hcal as [k Hcal].
  assert (Hshow : show_training_info self h
                  = (Ok {| training_type := class_name (class_of wk);
                           duration := duration_of wk;
                           distance := VFloat (fa * spec_step_length wk / 1000);
                           speed := VFloat (q / fd);
                           calories := VFloat k |}, h)).
  { rewrite (show_training_info_spec _ _ _ Hh).
    rewrite (get_distance_spec _ _ _ Hh), (spec_distance_float _ _ _ Ha).
    rewrite Hms, Hcal. reflexivity. }
  destruct (get_message_floats (class_name (class_of wk)) (duration_of wk)
              (VFloat (fa * spec_step_length wk / 1000)) (VFloat (q / fd))
              (VFloat k) (ex_intro _ fd Hd) eq_refl eq_refl eq_refl)
    as [line Hline].
  exists line. unfold main, mbind, M_bind. rewrite Hshow.
  unfold lift, M_lift. rewrite Hline. reflexivity.
Qed.

(** X10: in a Swimming workout the distance comes from the action alone,
    and the mean speed and the calories from duration, weight and pool
    data alone: two instances that agree on the inputs of a metric get
    the same value, whatever their other fields are. *)
Theorem swimming_metric_inputs h1 s1 h2 s2 a d w lp cp a' d' w' lp' cp' :
  holds h1 s1 (ASwimming a d w lp cp) ->
  holds h2 s2 (ASwimming a' d' w' lp' cp') ->
  (a = a' -> fst (get_distance s1 h1) = fst (get_distance s2 h2))
  /\ (d = d' -> lp = lp' -> cp = cp' ->
      fst (get_mean_speed s1 h1) = fst (get_mean_speed s2 h2)
      /\ (w = w' ->
          fst (get_spent_calories s1 h1) = fst (get_spent_calories s2 h2))).
Proof.
  intros H1 H2. split.
  - intros <-.
    rewrite (get_distance_spec _ _ _ H1), (get_distance_spec _ _ _ H2).
    reflexivity.
  - intros <- <- <-.
    assert (Hs : fst (get_mean_speed s1 h1) = fst (get_mean_speed s2 h2)).
    { rewrite (get_mean_speed_spec _ _ _ H1), (get_mean_speed_spec _ _ _ H2).
      reflexivity. }
    split; [ exact Hs | ].
    intros <-.
    rewrite (get_spent_calories_spec _ _ _ H1), (get_spent_calories_spec _ _ _ H2).
    simpl fst. rewrite Hs. reflexivity.
Qed.

(** X13: [get_message] returns a string exactly when each of the four
    numeric fields is an int or a float that converts to a float.
    Otherwise it raises the conversion error of the first field, in the
    order duration, distance, speed, calories, that does not convert:
    TypeError for None, OverflowError for an int too large for a float
    (2 ** 1024 is one); a float field always converts. *)
Theorem get_message_returns_iff (m : InfoMessage) :
  ((exists line, get_message m = Ok line)
   <-> fits_float (duration m) /\ fits_float (distance m)
       /\ fits_float (speed m) /\ fits_float (calories m))
  /\ (forall e, get_message m = Raise e
        <-> exists pre v post,
              numeric_fields m = pre ++ v :: post
              /\ Forall fits_float pre /\ to_float v = Raise e)
  /\ to_float VNone = Raise TypeError
  /\ (forall z e, to_float (VInt z) = Raise e -> e = OverflowError)
  /\ to_float (VInt (2 ^ 1024)) = Raise OverflowError
  /\ (forall f, to_float (VFloat f) = Ok f).
Proof.
  split; [ | split; [ | split; [ reflexivity | split; [ | split;
    [ vm_compute; reflexivity | reflexivity ] ] ] ] ].
  - rewrite get_message_outcome. unfold fits_float.
    destruct (to_float (duration m)) as [fd|ed] eqn:Hd; simpl.
    2:{ split; [ intros [line Hl]; discriminate Hl
               | intros ([f Hf] & _); discriminate Hf ]. }
    destruct (to_float (distance m)) as [fx|ex] eqn:Hx; simpl.
    2:{ split; [ intros [line Hl]; discriminate Hl
               | intros (_ & [f Hf] & _); discriminate Hf ]. }
    destruct (to_float (speed m)) as [fs|es] eqn:Hs; simpl.
    2:{ split; [ intros [line Hl]; discriminate Hl
               | intros (_ & _ & [f Hf] & _); discriminate Hf ]. }
    destruct (to_float (calories m)) as [fc|ec] eqn:Hc; simpl.
    2:{ split; [ intros [line Hl]; discriminate Hl
               | intros (_ & _ & _ & [f Hf]); discriminate Hf ]. }
    split; [ intros _; repeat split; eexists; reflexivity
           | intros _; eexists; reflexivity ].
  - intros e. rewrite get_message_outcome. unfold numeric_fields. split.
    + destruct (to_float (duration m)) as [fd|ed] eqn:Hd; simpl.
      2:{ intros [= <-]. exists [], (duration m), [distance m; speed m; calories m].
          split; [ reflexivity | split; [ constructor | exact Hd ] ]. }
      destruct (to_float (distance m)) as [fx|ex] eqn:Hx; simpl.
      2:{ intros [= <-]. exists [duration m], (distance m), [speed m; calories m].
          split; [ reflexivity | split; [ | exact Hx ] ].
          repeat constructor. exists fd. exact Hd. }
      destruct (to_float (speed m)) as [fs|es] eqn:Hs; simpl.
      2:{ intros [= <-]. exists [duration m; distance m], (speed m), [calories m].
          split; [ reflexivity | split; [ | exact Hs ] ].
          repeat constructor; [ exists fd; exact Hd | exists fx; exact Hx ]. }
      destruct (to_float (calories m)) as [fc|ec] eqn:Hc; simpl.
      2:{ intros [= <-]. exists [duration m; distance m; speed m], (calories m), [].
          split; [ reflexivity | split; [ | exact Hc ] ].
          repeat constructor;
            [ exists fd; exact Hd | exists fx; exact Hx | exists fs; exact Hs ]. }
      discriminate.
    + intros (pre & v & post & Hl & Hpre & Hv).
      destruct pre as [ |a [ |b [ |c [ |d pre]]]]; simpl in Hl.
      * injection Hl as <- _. rewrite Hv. reflexivity.
      * injection Hl as <- <- _.
        apply Forall_cons in Hpre as [[fa Ha] _].
        rewrite Ha; simpl. rewrite Hv. reflexivity.
      * injection Hl as <- <- <- _.
        apply Forall_cons in Hpre as [[fa Ha] Hpre].
        apply Forall_cons in Hpre as [[fb Hb] _].
        rewrite Ha; simpl. rewrite Hb; simpl. rewrite Hv. reflexivity.
      * injection Hl as <- <- <- <- _.
        apply Forall_cons in Hpre as [[fa Ha] Hpre].
        apply Forall_cons in Hpre as [[fb Hb] Hpre].
        apply Forall_cons in Hpre as [[fc Hc] _].
        rewrite Ha; simpl. rewrite Hb; simpl. rewrite Hc; simpl.
        rewrite Hv. reflexivity.
      * destruct pre; discriminate Hl.
  - intros z e. simpl. unfold int_to_float.
    destruct (binary_normalize prec emax z 0 false); intros [= <-]; reflexivity.
Qed.

(** ** Workouts built by the dispatcher, and the loop of the script *)

Lemma read_package_builds code data h self h' :
  read_package code data h = (Ok self, h') ->
  exists wk,
    concrete wk = true /\ self = length h /\ h' = h ++ [object_of wk]
    /\ holds h' self wk
    /\ dictionary !! code = Some (class_of wk) /\ args_of wk = data.
Proof.
  destruct (dictionary !! code) as [cls|] eqn:Hc.
  - rewrite (read_package_known _ _ _ _ Hc), instantiate_spec.
    destruct (view cls data) as [wk|] eqn:Hv; [ | discriminate ].
    intros [= <- <-]. exists wk.
    destruct (view_class _ _ _ Hv) as [Hcls Hargs].
    pose proof (dictionary_concrete _ _ Hc) as Hne.
    repeat split.
    + destruct wk; try reflexivity. simpl in Hcls. congruence.
    + apply holds_last.
    + rewrite Hcls. reflexivity.
    + exact Hargs.
  - rewrite (read_package_unknown _ _ _ Hc). discriminate.
Qed.

Lemma readonly_main self : readonly (main self).
Proof.
  unfold main. apply readonly_bind.
  - apply readonly_show_training_info.
  - intros info. apply readonly_lift.
Qed.

(** X14: a workout built by [read_package] is never of the base class:
    its calories, when returned, are a float and not None, and [main]
    prints its line exactly when [show_training_info] returns its summary
    (rendering such a summary never fails). *)
Theorem dispatched_workout_prints_when_summarised code data h self h' :
  read_package code data h = (Ok self, h') ->
  (forall v, fst (get_spent_calories self h') = Ok v -> is_float v = true)
  /\ ((exists info, fst (show_training_info self h') = Ok info)
      <-> (exists line, fst (main self h') = Ok line)).
Proof.
  intros Hr. destruct (read_package_builds _ _ _ _ _ Hr)
    as (wk & Hc & _ & _ & Hh & _).
  split; [ intros v; exact (calories_float _ _ _ _ Hh Hc) | ].
  rewrite main_fst. split.
  - intros [info Hi]. rewrite Hi. simpl.
    revert Hi. rewrite (show_training_info_spec _ _ _ Hh). simpl fst.
    destruct (fst (get_distance self h')) as [x|e] eqn:Hx; [ | discriminate ].
    destruct (fst (get_mean_speed self h')) as [s|e] eqn:Hs; [ | discriminate ].
    destruct (fst (get_spent_calories self h')) as [k|e] eqn:Hk; [ | discriminate ].
    simpl. intros [= <-].
    apply get_message_floats.
    + exact (speed_ok_duration_fits _ _ _ _ Hh Hs).
    + exact (distance_float _ _ _ _ Hh Hx).
    + exact (speed_float _ _ _ _ Hh Hs).
    + exact (calories_float _ _ _ _ Hh Hc Hk).
  - intros [line Hl].
    destruct (fst (show_training_info self h')) as [info|e];
      [ exists info; reflexivity | discriminate Hl ].
Qed.

(** X11: the loop over the packages composes: running a list followed by
    another is running the first and, if no exception ended it,
    continuing with the second from the heap reached; an exception in
    the first part ends the run and keeps the lines printed so far. *)
Theorem run_packages_app ps1 ps2 h :
  run_packages (ps1 ++ ps2) h
  = let '(lines1, r1, h1) := run_packages ps1 h in
    match r1 with
    | Ok _ =>
        let '(lines2, r2, h2) := run_packages ps2 h1 in
        (lines1 ++ lines2, r2, h2)
    | Raise e => (lines1, Raise e, h1)
    end.
Proof.
  revert h. induction ps1 as [|[workout_type data] rest IH]; intros h.
  - simpl. destruct (run_packages ps2 h) as [[lines2 r2] h2]. reflexivity.
  - simpl.
    destruct (read_package workout_type data h) as [[training|e] h1];
      [ | reflexivity ].
    destruct (main training h1) as [[line|e] h2]; [ | reflexivity ].
    rewrite IH.
    destruct (run_packages rest h2) as [[lines1 r1] h3].
    destruct r1 as [[]|e]; [ | reflexivity ].
    destruct (run_packages ps2 h3) as [[lines2 r2] h4]. reflexivity.
Qed.

(** X12: a run that ends without exception has printed one line and
    built one object per package; a run ended by an exception has printed
    fewer lines than there are packages; in both cases every object that
    existed before is still there unchanged. *)
Theorem run_packages_counts ps h lines r h' :
  run_packages ps h = (lines, r, h') ->
  (r = Ok tt ->
     length lines = length ps /\ length h' = length h + length ps)
  /\ ((exists e, r = Raise e) -> length lines < length ps)
  /\ (forall l o, h !! l = Some o -> h' !! l = Some o).
Proof.
  revert h lines r h'.
  induction ps as [|[workout_type data] rest IH]; intros h lines r h'.
  - simpl. intros [= <- <- <-]. repeat split; try reflexivity.
    + simpl. lia.
    + intros [e He]. discriminate He.
    + auto.
  - simpl.
    pose proof (read_package_heap workout_type data h) as Hheap.
    destruct (read_package workout_type data h) as [[training|e] h1] eqn:Hr.
    2:{ intros [= <- <- <-]. simpl in Hheap. repeat split.
        - discriminate.
        - discriminate.
        - simpl. lia.
        - intros l o Hl. destruct Hheap as [->|[o' ->]]; [ exact Hl | ].
          rewrite lookup_app_l by (eapply lookup_lt_Some; exact Hl). exact Hl. }
    destruct (read_package_builds _ _ _ _ _ Hr) as (wk & _ & _ & Hh1 & _).
    pose proof (readonly_main training h1) as Hro.
    destruct (main training h1) as [[line|e] h2]; simpl in Hro; subst h2.
    2:{ intros [= <- <- <-]. repeat split.
        - discriminate.
        - discriminate.
        - simpl. lia.
        - intros l o Hl. subst h1.
          rewrite lookup_app_l by (eapply lookup_lt_Some; exact Hl). exact Hl. }
    destruct (run_packages rest h1) as [[lines' r'] h3] eqn:Hrest.
    intros [= <- <- <-].
    destruct (IH _ _ _ _ Hrest) as (Hok & Herr & Hkeep).
    split; [ | split ].
    + intros Hr'. destruct (Hok Hr') as [Hl1 Hl2]. split; [ simpl; lia | ].
      rewrite Hl2. subst h1. rewrite length_app. simpl. lia.
    + intros He. specialize (Herr He). simpl. lia.
    + intros l o Hl. apply Hkeep. subst h1.
      rewrite lookup_app_l by (eapply lookup_lt_Some; exact Hl). exact Hl.
Qed.

End Homework.

(** ** The script and the theorems at concrete inputs *)

(** The three lines the script prints for its three packages, run with
    the library [pow2_exact]. *)
Definition run_package (workout_type : string) (data : list value) : result string :=
  fst ((training ← read_package workout_type data; main pow2_exact training) []).

Example script_output :
  run_package "SWM" [VInt 720; VInt 1; VInt 80; VInt 25; VInt 40]
  = Ok "Тип тренировки: Swimming; Длительность: 1.000 ч.; Дистанция: 0.994 км; Ср. скорость: 1.000 км/ч; Потрачено ккал: 336.000."
  /\ run_package "RUN" [VInt 15000; VInt 1; VInt 75]
     = Ok "Тип тренировки: Running; Длительность: 1.000 ч.; Дистанция: 9.750 км; Ср. скорость: 9.750 км/ч; Потрачено ккал: 797.805."
  /\ run_package "WLK" [VInt 9000; VInt 1; VInt 75; VInt 180]
     = Ok "Тип тренировки: SportsWalking; Длительность: 1.000 ч.; Дистанция: 5.850 км; Ср. скорость: 5.850 км/ч; Потрачено ккал: 349.252.".
Proof. repeat split; vm_compute; reflexivity. Qed.

(** The three lines do not depend on which admissible square the C
    library returns: the walk squares [5.85 * 0.278], and its calories
    print as 349.252 whether [pow] gives the float product or one of its
    two neighbours. *)
Lemma script_output_any_library (pow2 : float -> float) :
  faithful_pow2 pow2 ->
  fst ((training ← read_package "SWM" [VInt 720; VInt 1; VInt 80; VInt 25; VInt 40];
        main pow2 training) [])
  = Ok "Тип тренировки: Swimming; Длительность: 1.000 ч.; Дистанция: 0.994 км; Ср. скорость: 1.000 км/ч; Потрачено ккал: 336.000."
  /\ fst ((training ← read_package "RUN" [VInt 15000; VInt 1; VInt 75];
           main pow2 training) [])
     = Ok "Тип тренировки: Running; Длительность: 1.000 ч.; Дистанция: 9.750 км; Ср. скорость: 9.750 км/ч; Потрачено ккал: 797.805."
  /\ fst ((training ← read_package "WLK" [VInt 9000; VInt 1; VInt 75; VInt 180];
           main pow2 training) [])
     = Ok "Тип тренировки: SportsWalking; Длительность: 1.000 ч.; Дистанция: 5.850 км; Ср. скорость: 5.850 км/ч; Потрачено ккал: 349.252.".
Proof.
  intros Hlibm.
  split; [ vm_compute; reflexivity | ].
  split; [ vm_compute; reflexivity | ].
  assert (Hr : read_package "WLK" [VInt 9000; VInt 1; VInt 75; VInt 180] []
               = (Ok 0, [object_of walk_9000])) by (vm_compute; reflexivity).
  unfold mbind at 1, M_bind. rewrite Hr.
  assert (Hh : holds [object_of walk_9000] 0 walk_9000) by reflexivity.
  assert (Ha : to_float (VInt 9000) = Ok 9000%float) by (vm_compute; reflexivity).
  assert (Hd : to_float (VInt 1) = Ok 1%float) by (vm_compute; reflexivity).
  assert (Hw : to_float (VInt 75) = Ok 75%float) by (vm_compute; reflexivity).
  assert (Hm : py_truediv (VInt 180) (VInt 100) = Ok (VFloat 1.8))
    by (vm_compute; reflexivity).
  destruct (walking_calories_outcome_eq pow2 [object_of walk_9000] 0
              (VInt 9000) (VInt 1) (VInt 75) (VInt 180)
              9000%float 1%float 75%float 1.8%float
              Hh eq_refl Ha Hd Hw Hm) as [Hms Hcal].
  rewrite main_fst, (show_training_info_fst pow2 _ _ _ Hh), Hms, Hcal.
  set (x := (5.85 * 0.278)%float).
  assert (Hp : float_pow2 pow2 (9000 * 0.65 / 1000 / 1 * 0.278)
               = if PrimFloat.is_infinity (pow2 x) then Raise OverflowError
                 else Ok (pow2 x)) by reflexivity.
  rewrite Hp.
  destruct (Hlibm x) as [E|[E|E]]; rewrite E; vm_compute; reflexivity.
Qed.

Lemma get_distance_formula_witness :
  get_distance 0 [object_of swim_720]
  = (Ok (VFloat (720 * 1.38 / 1000)), [object_of swim_720]).
Proof.
  apply (get_distance_formula [object_of swim_720] 0 swim_720).
  - reflexivity.
  - reflexivity.
  - vm_compute. reflexivity.
Defined.

Lemma get_mean_speed_formula_witness :
  no_zero_division (fst (get_mean_speed 0 [object_of run_15000]))
  /\ get_mean_speed 0 [object_of run_15000]
     = (Ok (VFloat (15000 * 0.65 / 1000 / 1)), [object_of run_15000]).
Proof.
  destruct (get_mean_speed_formula [object_of run_15000] 0 run_15000
              eq_refl eq_refl eq_refl) as (Hnz & _ & Hf).
  split; [ exact Hnz | ].
  apply Hf; vm_compute; reflexivity.
Defined.

Lemma running_calories_formula_witness :
  exists ms,
    get_mean_speed 0 [object_of run_15000]
    = (Ok (VFloat ms), [object_of run_15000])
    /\ get_spent_calories pow2_exact 0 [object_of run_15000]
       = (Ok (VFloat ((18 * ms + 1.79) * 75 / 1000 * 1 * 60)),
          [object_of run_15000]).
Proof.
  destruct (running_calories_formula pow2_exact [object_of run_15000] 0
              (VInt 15000) (VInt 1) (VInt 75) eq_refl eq_refl) as (_ & _ & Hf).
  apply (Hf 15000%float 1%float 75%float); vm_compute; reflexivity.
Defined.



Lemma swimming_calories_formula_witness :
  get_spent_calories pow2_exact 0 [object_of swim_720]
  = (Ok (VFloat ((1 + 1.1) * 2 * 80 * 1)), [object_of swim_720]).
Proof.
  destruct (swimming_calories_formula pow2_exact [object_of swim_720] 0
              (VInt 720) (VInt 1) (VInt 80) (VInt 25) (VInt 40)
              eq_refl eq_refl) as (_ & _ & Hf).
  apply (Hf 1%float 1%float 80%float); vm_compute; reflexivity.
Defined.

Lemma base_calories_returns_none_witness :
  get_spent_calories pow2_exact 0 [object_of base_9000]
  = (Ok VNone, [object_of base_9000]).
Proof.
  apply (base_calories_returns_none pow2_exact [object_of base_9000] 0
           (VInt 9000) (VInt 1) (VInt 75)).
  reflexivity.
Defined.

(** C1 as stated fails on the instance [Training(9000, 1, 75)]: the call
    returns [None]; nothing is raised. *)
Lemma base_calories_no_fault :
  instantiate Training [VInt 9000; VInt 1; VInt 75] []
  = (Ok 0, [object_of base_9000])
  /\ get_spent_calories pow2_exact 0 [object_of base_9000]
     = (Ok VNone, [object_of base_9000])
  /\ ~ signals_fault (fst (get_spent_calories pow2_exact 0 [object_of base_9000])).
Proof.
  split; [ vm_compute; reflexivity | ].
  assert (H : get_spent_calories pow2_exact 0 [object_of base_9000]
              = (Ok VNone, [object_of base_9000]))
    by (vm_compute; reflexivity).
  split; [ exact H | ].
  rewrite H. intros [e He]. discriminate He.
Qed.

Lemma read_package_codes_witness :
  read_package "XYZ" [VInt 720; VInt 1; VInt 80] []
  = (Raise (KeyError "Ошибка типа тренировки XYZ"), [])
  /\ (forall msg,
        fst (read_package "RUN" [VInt 15000; VInt 1; VInt 75] [])
        <> Raise (KeyError msg)).
Proof.
  split.
  - apply (read_package_codes "XYZ" [VInt 720; VInt 1; VInt 80] []).
    unfold recognized. rewrite !not_elem_of_cons.
    repeat split; [ discriminate .. | apply not_elem_of_nil ].
  - apply (read_package_codes "RUN" [VInt 15000; VInt 1; VInt 75] []).
    unfold recognized. rewrite !elem_of_cons. right. left. reflexivity.
Defined.

Lemma swimming_package_summary_witness :
  exists self h',
    read_package "SWM" [VInt 720; VInt 1; VInt 80; VInt 25; VInt 40] []
    = (Ok self, h')
    /\ main pow2_exact self h'
       = (Ok "Тип тренировки: Swimming; Длительность: 1.000 ч.; Дистанция: 0.994 км; Ср. скорость: 1.000 км/ч; Потрачено ккал: 336.000.",
          h').
Proof.
  destruct (swimming_package_summary pow2_exact []) as (self & h' & Hr & Hs & _).
  exists self, h'. split; [ exact Hr | ].
  unfold main, mbind, M_bind. rewrite Hs.
  unfold lift, M_lift. f_equal.
Defined.

Lemma get_message_rendering_witness :
  message_as_specified summary_swim
  /\ exists d x s c,
       get_message summary_heavy
       = Ok (message_template "Running" d x s c)
       /\ rendered_as 1 d /\ rendered_as infinity c /\ c = "inf".
Proof.
  split.
  - apply (proj1 (get_message_rendering summary_swim));
      eexists; (split; [ vm_compute; reflexivity | vm_compute; reflexivity ]).
  - assert (H1 : to_float (VInt 1) = Ok 1%float) by (vm_compute; reflexivity).
    destruct (proj2 (proj2 (get_message_rendering summary_heavy))
                1%float 9.75%float 9.75%float infinity
                H1 eq_refl eq_refl eq_refl)
      as (d & x & s & c & Hm & Rd & _ & _ & Rc).
    exists d, x, s, c.
    split; [ exact Hm | ]. split; [ exact Rd | ]. split; [ exact Rc | ].
    destruct Rc as [[Hn _]|[[_ Hc]|[[Hi _]|[Hf _]]]].
    + discriminate Hn.
    + exact Hc.
    + apply (f_equal Prim2SF) in Hi. discriminate Hi.
    + discriminate Hf.
Defined.

(** C9 as stated fails on a summary the program itself builds: with a
    weight of 1e308 the calories overflow to infinity, which [.3f] renders
    as "inf", without fractional digits. *)
Lemma get_message_infinite_calories :
  (exists self h',
     read_package "RUN" [VInt 15000; VInt 1; VFloat 1e308] [] = (Ok self, h')
     /\ show_training_info pow2_exact self h' = (Ok summary_heavy, h'))
  /\ get_message summary_heavy
     = Ok "Тип тренировки: Running; Длительность: 1.000 ч.; Дистанция: 9.750 км; Ср. скорость: 9.750 км/ч; Потрачено ккал: inf."
  /\ ~ message_as_specified summary_heavy.
Proof.
  split; [ | split ].
  - exists 0, [object_of (ARunning (VInt 15000) (VInt 1) (VFloat 1e308))].
    split; vm_compute; reflexivity.
  - vm_compute. reflexivity.
  - intros (d & x & s & c & _ & _ & _ & [Hc Tc] & _).
    assert (Hinf : format_3f (calories summary_heavy) = Ok "inf")
      by (vm_compute; reflexivity).
    rewrite Hinf in Hc. inversion Hc; subst c.
    apply three_fractional_digits_length in Tc. simpl in Tc. lia.
Qed.

Lemma methods_leave_fields_unchanged_witness :
  unchanged [object_of walk_9000] 0
    (snd (show_training_info pow2_exact 0 [object_of walk_9000]))
  /\ holds (snd (get_spent_calories pow2_exact 0 [object_of walk_9000])) 0 walk_9000.
Proof.
  destruct (methods_leave_fields_unchanged pow2_exact [object_of walk_9000] 0)
    as (_ & _ & [_ Hc] & Hs).
  split; [ exact Hs | apply Hc; reflexivity ].
Defined.

(** ** The further properties at concrete inputs *)

Lemma read_package_arity_witness :
  fst (read_package "WLK" [VInt 9000; VInt 1; VInt 75] []) = Raise TypeError
  /\ fst (read_package "WLK" [VInt 9000; VInt 1; VInt 75; VInt 180] []) = Ok 0.
Proof.
  split.
  - exact (read_package_arity "WLK" SportsWalking
             [VInt 9000; VInt 1; VInt 75] [] eq_refl).
  - exact (read_package_arity "WLK" SportsWalking
             [VInt 9000; VInt 1; VInt 75; VInt 180] [] eq_refl).
Defined.

Lemma read_package_stores_data_witness :
  getattr 0 "length_pool" [object_of swim_720]
  = (Ok (VInt 25), [object_of swim_720]).
Proof.
  assert (Hr : read_package "SWM" [VInt 720; VInt 1; VInt 80; VInt 25; VInt 40] []
               = (Ok 0, [object_of swim_720]))
    by (vm_compute; reflexivity).
  destruct (read_package_stores_data "SWM" Swimming _ [] 0 _ eq_refl Hr)
    as (_ & _ & _ & Hf).
  destruct (Hf 3 "length_pool" eq_refl) as (v & Hv & Hg).
  simpl in Hv. inversion Hv; subst v. exact Hg.
Defined.


Lemma summary_contents_witness :
  show_training_info pow2_exact 0 [object_of run_15000]
  = (Ok {| training_type := "Running"; duration := VInt 1;
           distance := VFloat 9.75; speed := VFloat 9.75;
           calories := VFloat ((18 * 9.75 + 1.79) * 75 / 1000 * 1 * 60) |},
     [object_of run_15000]).
Proof.
  apply (proj2 (summary_contents pow2_exact [object_of run_15000] 0
                  run_15000 eq_refl));
    vm_compute; reflexivity.
Defined.

Lemma base_workout_cannot_be_printed_witness :
  fst (main pow2_exact 0 [object_of base_9000]) = Raise TypeError.
Proof.
  rewrite (proj1 (base_workout_cannot_be_printed pow2_exact
                    [object_of base_9000] 0 (VInt 9000) (VInt 1) (VInt 75)
                    eq_refl)).
  vm_compute. reflexivity.
Defined.

Lemma zero_duration_raises_witness :
  fst (main pow2_exact 0 [object_of run_zero]) = Raise ZeroDivisionError.
Proof.
  destruct (zero_duration_raises pow2_exact [object_of run_zero] 0 run_zero
              eq_refl eq_refl) as (_ & _ & _ & Hp).
  apply Hp. split; [ | exact I ].
  exists 15000%float. vm_compute. reflexivity.
Defined.

Lemma distance_and_speed_outcomes_witness :
  get_mean_speed 0 [object_of run_negative]
  = (Ok (VFloat (15000 * 0.65 / 1000 / -2)), [object_of run_negative]).
Proof.
  destruct (distance_and_speed_outcomes [object_of run_negative] 0
              run_negative eq_refl) as [_ Hs].
  rewrite (Hs eq_refl). vm_compute. reflexivity.
Defined.

Lemma concrete_metrics_are_floats_witness :
  exists v,
    fst (get_spent_calories pow2_exact 0 [object_of swim_720]) = Ok v
    /\ is_float v = true.
Proof.
  assert (Hv : fst (get_spent_calories pow2_exact 0 [object_of swim_720])
               = Ok (VFloat 336))
    by (vm_compute; reflexivity).
  exists (VFloat 336). split; [ exact Hv | ].
  exact (proj2 (proj2 (concrete_metrics_are_floats pow2_exact
                         [object_of swim_720] 0 swim_720 eq_refl eq_refl))
           _ Hv).
Defined.

Lemma main_prints_running_swimming_witness :
  exists line,
    main pow2_exact 0 [object_of run_negative]
    = (Ok line, [object_of run_negative]).
Proof.
  apply (main_prints_running_swimming pow2_exact [object_of run_negative] 0
           run_negative).
  - reflexivity.
  - reflexivity.
  - split; [ exists 15000%float; vm_compute; reflexivity | exact I ].
  - exists (-2)%float. reflexivity.
  - exists 75%float. vm_compute. reflexivity.
  - reflexivity.
Defined.

Lemma swimming_metric_inputs_witness :
  fst (get_spent_calories pow2_exact 0 [object_of swim_720])
  = fst (get_spent_calories pow2_exact 0
           [object_of (ASwimming (VInt 0) (VInt 1) (VInt 80) (VInt 25) (VInt 40))]).
Proof.
  destruct (swimming_metric_inputs pow2_exact
              [object_of swim_720] 0
              [object_of (ASwimming (VInt 0) (VInt 1) (VInt 80) (VInt 25) (VInt 40))] 0
              (VInt 720) (VInt 1) (VInt 80) (VInt 25) (VInt 40)
              (VInt 0) (VInt 1) (VInt 80) (VInt 25) (VInt 40)
              eq_refl eq_refl) as [_ Hs].
  destruct (Hs eq_refl eq_refl eq_refl) as [_ Hc].
  exact (Hc eq_refl).
Defined.

Lemma run_packages_counts_witness :
  run_packages pow2_exact packages [] = (script_lines, Ok tt, script_heap)
  /\ length script_lines = length packages
  /\ length script_heap = 0 + length packages.
Proof.
  assert (Hr : run_packages pow2_exact packages []
               = (script_lines, Ok tt, script_heap))
    by (vm_compute; reflexivity).
  split; [ exact Hr | ].
  destruct (run_packages_counts pow2_exact packages [] script_lines (Ok tt)
              script_heap Hr) as (Hok & _ & _).
  exact (Hok eq_refl).
Defined.

Lemma dispatched_workout_prints_when_summarised_witness :
  (exists info, fst (show_training_info pow2_exact 0 [object_of walk_9000]) = Ok info)
  <-> (exists line, fst (main pow2_exact 0 [object_of walk_9000]) = Ok line).
Proof.
  assert (Hr : read_package "WLK" [VInt 9000; VInt 1; VInt 75; VInt 180] []
               = (Ok 0, [object_of walk_9000]))
    by (vm_compute; reflexivity).
  exact (proj2 (dispatched_workout_prints_when_summarised pow2_exact
                  "WLK" _ [] 0 _ Hr)).
Defined.
